(** * FheAsAServiceFHE: the confidential batch-aggregation contract

    A shallow embedding of the Solidity contract [FheAsAServiceFHE]
    (shipped inside [src/frontend/web/src/App.tsx], lines 719-971) and a
    verification of its batch ledger, its rate limiter and its
    request / callback protocol.

    Conventions.
    - [uint256] and [address] values are [Z]; Solidity 0.8 arithmetic is
      checked, so an overflowing [+] or [++] reverts with [Panic].
    - A Solidity [mapping] is a [gmap] read through [mapping_get], which
      returns the type's zero value on an absent key.
    - The FHE library ([@fhevm/solidity]) and [keccak256] are not part of
      the repository: they are the interface [FHELib].
    - A call is a computation in the monad [M]: it threads the contract
      state and stops at the first [revert].  [transact] adds the EVM's
      roll-back on top. *)

From Stdlib Require Import ZArith Lia Bool List.
From stdpp Require Import gmap list.
Import ListNotations.

Local Open Scope Z_scope.

(** ** Machine integers and bytes *)

Definition MAX_UINT256 : Z := 2 ^ 256 - 1.

Definition address := Z.

Definition bytes := list Byte.byte.

Definition byte_val (b : Byte.byte) : Z := Z.of_N (Byte.to_N b).

(** Big-endian value of a byte string. *)
Definition be_value (bs : bytes) : Z :=
  fold_left (fun acc b => acc * 256 + byte_val b) bs 0.

Definition byte_of_Z (z : Z) : Byte.byte :=
  match Byte.of_N (Z.to_N (z mod 256)) with
  | Some b => b
  | None => Byte.x00
  end.

(** [be_bytes n v]: the [n] low bytes of [v], most significant first. *)
Fixpoint be_bytes (n : nat) (v : Z) : bytes :=
  match n with
  | O => []
  | S n' => be_bytes n' (v / 256) ++ [byte_of_Z v]
  end.

(** [abi.encode] of one [uint256] / one [bool]: a 32-byte word. *)
Definition abi_encode_uint256 (v : Z) : bytes := be_bytes 32 v.
Definition abi_encode_bool (b : bool) : bytes := be_bytes 32 (if b then 1 else 0).

(** ** Errors and events of the contract (lines 750-774) *)

Inductive Error :=
| NotOwner
| NotProvider
| Paused
| CooldownActive
| BatchClosed
| InvalidBatch
| ReplayAttempt
| StateMismatch
| InvalidProof
| AlreadyInitialized
| NotInitialized
| Panic               (* checked-arithmetic overflow, Panic(0x11) *)
| SignatureRevert     (* FHE.checkSignatures rejected the proof *)
| DecodeRevert.       (* slice out of bounds or abi.decode rejected a word *)

Global Instance Error_eq_dec : EqDecision Error.
Proof. solve_decision. Defined.

(** The environment of one call: [msg.sender] and [block.timestamp]. *)
Record Env := mkEnv { msg_sender : address; block_timestamp : Z }.

(** ** The FHE library and the hash, as an interface *)

Class FHELib := {
  euint32 : Type;
  ebool : Type;
  bytes32 : Type;
  bytes32_eq_dec :: EqDecision bytes32;
  (* zero values, what an unwritten storage slot reads as *)
  bytes32_zero : bytes32;
  euint32_zero : euint32;
  ebool_zero : ebool;
  (* FHE.asEuint32, FHE.asEbool *)
  asEuint32 : Z -> euint32;
  asEbool : bool -> ebool;
  (* a.add(b), a.div(b), a.ge(b), a.or(b) *)
  fhe_add : euint32 -> euint32 -> euint32;
  fhe_div : euint32 -> euint32 -> euint32;
  fhe_ge : euint32 -> euint32 -> ebool;
  fhe_or : ebool -> ebool -> ebool;
  (* x.toBytes32() *)
  euint32_toBytes32 : euint32 -> bytes32;
  ebool_toBytes32 : ebool -> bytes32;
  (* x.isInitialized() and FHE.isInitialized() *)
  euint32_isInitialized : euint32 -> bool;
  ebool_isInitialized : ebool -> bool;
  FHE_isInitialized : bool;
  (* FHE.checkSignatures(requestId, cleartexts, proof): true when it returns,
     false when it reverts *)
  checkSignatures : Z -> bytes -> bytes -> bool;
  (* keccak256(abi.encode(cts, addr)) *)
  keccak256_encode : list bytes32 -> address -> bytes32;
  (* address(this) *)
  this_address : address
}.

Section Contract.
Context `{F : FHELib}.

(** ** Storage (lines 728-748) *)

Record DecryptionContext := mkContext {
  batchId : Z;
  stateHash : bytes32;
  processed : bool
}.

Definition context_zero : DecryptionContext :=
  {| batchId := 0; stateHash := bytes32_zero; processed := false |}.

Inductive Event :=
| OwnershipTransferred (previousOwner newOwner : address)
| ProviderAdded (provider : address)
| ProviderRemoved (provider : address)
| CooldownSet (oldCooldown newCooldown : Z)
| ContractPaused
| ContractUnpaused
| BatchOpened (batch : Z)
| BatchClosedEv (batch : Z)
| DataSubmitted (provider : address) (batch dataId : Z)
| DecryptionRequested (requestId batch : Z) (hash : bytes32)
| DecryptionCompleted (requestId batch : Z) (results : list Z) (flags : list bool).

Record State := mkState {
  owner : address;
  isProvider : gmap Z bool;
  lastSubmissionTime : gmap Z Z;
  lastDecryptionRequestTime : gmap Z Z;
  cooldownSeconds : Z;
  paused : bool;
  currentBatchId : Z;
  batchOpen : bool;
  decryptionContexts : gmap Z DecryptionContext;
  encryptedData : gmap Z euint32;
  encryptedFlags : gmap Z ebool;
  dataCount : Z;
  events : list Event   (* the log, oldest first *)
}.

(** Reading a mapping: the zero value [d] on an absent key. *)
Definition mapping_get {V : Type} (d : V) (m : gmap Z V) (k : Z) : V :=
  default d (m !! k).

Definition context_of (s : State) (requestId : Z) : DecryptionContext :=
  mapping_get context_zero (decryptionContexts s) requestId.

(** Field updates. *)
Definition set_owner (v : address) (s : State) : State :=
  mkState v (isProvider s) (lastSubmissionTime s) (lastDecryptionRequestTime s)
    (cooldownSeconds s) (paused s) (currentBatchId s) (batchOpen s)
    (decryptionContexts s) (encryptedData s) (encryptedFlags s) (dataCount s) (events s).
Definition set_isProvider (v : gmap Z bool) (s : State) : State :=
  mkState (owner s) v (lastSubmissionTime s) (lastDecryptionRequestTime s)
    (cooldownSeconds s) (paused s) (currentBatchId s) (batchOpen s)
    (decryptionContexts s) (encryptedData s) (encryptedFlags s) (dataCount s) (events s).
Definition set_lastSubmissionTime (v : gmap Z Z) (s : State) : State :=
  mkState (owner s) (isProvider s) v (lastDecryptionRequestTime s)
    (cooldownSeconds s) (paused s) (currentBatchId s) (batchOpen s)
    (decryptionContexts s) (encryptedData s) (encryptedFlags s) (dataCount s) (events s).
Definition set_lastDecryptionRequestTime (v : gmap Z Z) (s : State) : State :=
  mkState (owner s) (isProvider s) (lastSubmissionTime s) v
    (cooldownSeconds s) (paused s) (currentBatchId s) (batchOpen s)
    (decryptionContexts s) (encryptedData s) (encryptedFlags s) (dataCount s) (events s).
Definition set_cooldownSeconds (v : Z) (s : State) : State :=
  mkState (owner s) (isProvider s) (lastSubmissionTime s) (lastDecryptionRequestTime s)
    v (paused s) (currentBatchId s) (batchOpen s)
    (decryptionContexts s) (encryptedData s) (encryptedFlags s) (dataCount s) (events s).
Definition set_paused (v : bool) (s : State) : State :=
  mkState (owner s) (isProvider s) (lastSubmissionTime s) (lastDecryptionRequestTime s)
    (cooldownSeconds s) v (currentBatchId s) (batchOpen s)
    (decryptionContexts s) (encryptedData s) (encryptedFlags s) (dataCount s) (events s).
Definition set_currentBatchId (v : Z) (s : State) : State :=
  mkState (owner s) (isProvider s) (lastSubmissionTime s) (lastDecryptionRequestTime s)
    (cooldownSeconds s) (paused s) v (batchOpen s)
    (decryptionContexts s) (encryptedData s) (encryptedFlags s) (dataCount s) (events s).
Definition set_batchOpen (v : bool) (s : State) : State :=
  mkState (owner s) (isProvider s) (lastSubmissionTime s) (lastDecryptionRequestTime s)
    (cooldownSeconds s) (paused s) (currentBatchId s) v
    (decryptionContexts s) (encryptedData s) (encryptedFlags s) (dataCount s) (events s).
Definition set_decryptionContexts (v : gmap Z DecryptionContext) (s : State) : State :=
  mkState (owner s) (isProvider s) (lastSubmissionTime s) (lastDecryptionRequestTime s)
    (cooldownSeconds s) (paused s) (currentBatchId s) (batchOpen s)
    v (encryptedData s) (encryptedFlags s) (dataCount s) (events s).
Definition set_encryptedData (v : gmap Z euint32) (s : State) : State :=
  mkState (owner s) (isProvider s) (lastSubmissionTime s) (lastDecryptionRequestTime s)
    (cooldownSeconds s) (paused s) (currentBatchId s) (batchOpen s)
    (decryptionContexts s) v (encryptedFlags s) (dataCount s) (events s).
Definition set_encryptedFlags (v : gmap Z ebool) (s : State) : State :=
  mkState (owner s) (isProvider s) (lastSubmissionTime s) (lastDecryptionRequestTime s)
    (cooldownSeconds s) (paused s) (currentBatchId s) (batchOpen s)
    (decryptionContexts s) (encryptedData s) v (dataCount s) (events s).
Definition set_dataCount (v : Z) (s : State) : State :=
  mkState (owner s) (isProvider s) (lastSubmissionTime s) (lastDecryptionRequestTime s)
    (cooldownSeconds s) (paused s) (currentBatchId s) (batchOpen s)
    (decryptionContexts s) (encryptedData s) (encryptedFlags s) v (events s).
Definition set_events (v : list Event) (s : State) : State :=
  mkState (owner s) (isProvider s) (lastSubmissionTime s) (lastDecryptionRequestTime s)
    (cooldownSeconds s) (paused s) (currentBatchId s) (batchOpen s)
    (decryptionContexts s) (encryptedData s) (encryptedFlags s) (dataCount s) v.

(** ** The call monad: state passing with revert *)

(** [Revert e s] keeps the state [s] reached when the call stopped, so
    that one can see which writes came before the revert. *)
Inductive Outcome (A : Type) :=
| Done (a : A) (s : State)
| Revert (e : Error) (s : State).
Arguments Done {A} a s.
Arguments Revert {A} e s.

Definition M (A : Type) := State -> Outcome A.

Definition ret {A} (a : A) : M A := fun s => Done a s.
Definition bind {A B} (m : M A) (k : A -> M B) : M B :=
  fun s => match m s with
           | Done a s' => k a s'
           | Revert e s' => Revert e s'
           end.
Definition revert {A} (e : Error) : M A := fun s => Revert e s.
Definition get : M State := fun s => Done s s.
Definition modify (f : State -> State) : M unit := fun s => Done tt (f s).
Definition emit (ev : Event) : M unit :=
  modify (fun s => set_events (events s ++ [ev]) s).

End Contract.

Arguments Done {F A} a s.
Arguments Revert {F A} e s.

Declare Scope call_scope.
Delimit Scope call_scope with call.
Notation "x <- c1 ;; c2" := (bind c1 (fun x => c2))
  (at level 100, c1 at next level, right associativity) : call_scope.
Notation "c1 ;; c2" := (bind c1 (fun _ => c2))
  (at level 100, right associativity) : call_scope.

Local Open Scope call_scope.

Section Functions.
Context `{F : FHELib}.

Definition require (b : bool) (e : Error) : M unit :=
  if b then ret tt else revert e.

(** Checked [a + b] on [uint256]. *)
Definition checked_add (a b : Z) : M Z :=
  if a + b <=? MAX_UINT256 then ret (a + b) else revert Panic.

(** ** Modifiers (lines 776-803) *)

Definition onlyOwner (env : Env) : M unit :=
  s <- get ;;
  if negb (msg_sender env =? owner s) then revert NotOwner else ret tt.

Definition onlyProvider (env : Env) : M unit :=
  s <- get ;;
  if negb (mapping_get false (isProvider s) (msg_sender env))
  then revert NotProvider else ret tt.

Definition whenNotPaused : M unit :=
  s <- get ;;
  if paused s then revert Paused else ret tt.

Definition submissionCooldown (env : Env) (submitter : address) : M unit :=
  s <- get ;;
  deadline <- checked_add (mapping_get 0 (lastSubmissionTime s) submitter)
                          (cooldownSeconds s) ;;
  if block_timestamp env <? deadline then revert CooldownActive else ret tt.

Definition decryptionRequestCooldown (env : Env) (requester : address) : M unit :=
  s <- get ;;
  deadline <- checked_add (mapping_get 0 (lastDecryptionRequestTime s) requester)
                          (cooldownSeconds s) ;;
  if block_timestamp env <? deadline then revert CooldownActive else ret tt.

(** ** Construction and administration (lines 805-859) *)

Definition constructor (env : Env) : State :=
  {| owner := msg_sender env;
     isProvider := {[ msg_sender env := true ]};
     lastSubmissionTime := ∅;
     lastDecryptionRequestTime := ∅;
     cooldownSeconds := 60;
     paused := false;
     currentBatchId := 1;
     batchOpen := false;
     decryptionContexts := ∅;
     encryptedData := ∅;
     encryptedFlags := ∅;
     dataCount := 0;
     events := [ProviderAdded (msg_sender env)] |}.

Definition transferOwnership (env : Env) (newOwner : address) : M unit :=
  onlyOwner env ;;
  s <- get ;;
  let previousOwner := owner s in
  modify (set_owner newOwner) ;;
  emit (OwnershipTransferred previousOwner newOwner).

Definition addProvider (env : Env) (provider : address) : M unit :=
  onlyOwner env ;;
  s <- get ;;
  if negb (mapping_get false (isProvider s) provider) then
    modify (fun s => set_isProvider (<[provider := true]> (isProvider s)) s) ;;
    emit (ProviderAdded provider)
  else ret tt.

Definition removeProvider (env : Env) (provider : address) : M unit :=
  onlyOwner env ;;
  s <- get ;;
  if mapping_get false (isProvider s) provider then
    modify (fun s => set_isProvider (<[provider := false]> (isProvider s)) s) ;;
    emit (ProviderRemoved provider)
  else ret tt.

Definition setCooldown (env : Env) (newCooldownSeconds : Z) : M unit :=
  onlyOwner env ;;
  s <- get ;;
  let oldCooldown := cooldownSeconds s in
  modify (set_cooldownSeconds newCooldownSeconds) ;;
  emit (CooldownSet oldCooldown newCooldownSeconds).

Definition pause (env : Env) : M unit :=
  onlyOwner env ;;
  whenNotPaused ;;
  modify (set_paused true) ;;
  emit ContractPaused.

Definition unpause (env : Env) : M unit :=
  onlyOwner env ;;
  modify (set_paused false) ;;
  emit ContractUnpaused.

Definition openBatch (env : Env) : M unit :=
  onlyOwner env ;;
  whenNotPaused ;;
  s <- get ;;
  (if batchOpen s then
     next <- checked_add (currentBatchId s) 1 ;;
     modify (set_currentBatchId next)
   else ret tt) ;;
  modify (set_batchOpen true) ;;
  s <- get ;;
  emit (BatchOpened (currentBatchId s)).

Definition closeBatch (env : Env) : M unit :=
  onlyOwner env ;;
  whenNotPaused ;;
  s <- get ;;
  require (batchOpen s) BatchClosed ;;
  modify (set_batchOpen false) ;;
  emit (BatchClosedEv (currentBatchId s)).

(** ** Submission (lines 861-872, 958-966) *)

Definition _initIfNeeded_euint32 (x : euint32) : M unit :=
  (if euint32_isInitialized x then revert AlreadyInitialized else ret tt) ;;
  (if negb FHE_isInitialized then revert NotInitialized else ret tt).

Definition _initIfNeeded_ebool (x : ebool) : M unit :=
  (if ebool_isInitialized x then revert AlreadyInitialized else ret tt) ;;
  (if negb FHE_isInitialized then revert NotInitialized else ret tt).

Definition submitEncryptedData (env : Env) (data : euint32) (flag : ebool) : M unit :=
  onlyProvider env ;;
  whenNotPaused ;;
  submissionCooldown env (msg_sender env) ;;
  s <- get ;;
  require (batchOpen s) BatchClosed ;;
  _initIfNeeded_euint32 data ;;
  _initIfNeeded_ebool flag ;;
  n <- checked_add (dataCount s) 1 ;;
  modify (set_dataCount n) ;;
  modify (fun s => set_encryptedData (<[dataCount s := data]> (encryptedData s)) s) ;;
  modify (fun s => set_encryptedFlags (<[dataCount s := flag]> (encryptedFlags s)) s) ;;
  modify (fun s => set_lastSubmissionTime
                     (<[msg_sender env := block_timestamp env]> (lastSubmissionTime s)) s) ;;
  s <- get ;;
  emit (DataSubmitted (msg_sender env) (currentBatchId s) (dataCount s)).

(** ** The fold over the ledger (lines 878-894 and 915-930, the same text) *)

(** The body of [for (i = 1; i <= dataCount; i++)], run [n] times from [i]. *)
Fixpoint fold_loop (data : gmap Z euint32) (flags : gmap Z ebool)
    (n : nat) (i : Z) (acc : euint32 * euint32 * ebool) : euint32 * euint32 * ebool :=
  match n with
  | O => acc
  | S n' =>
      let '(sum, count, anyFlagTrue) := acc in
      fold_loop data flags n' (i + 1)
        (fhe_add sum (mapping_get euint32_zero data i),
         fhe_add count (asEuint32 1),
         fhe_or anyFlagTrue (mapping_get ebool_zero flags i))
  end.

Definition fold_ledger (s : State) : euint32 * euint32 * ebool :=
  fold_loop (encryptedData s) (encryptedFlags s) (Z.to_nat (dataCount s)) 1
    (asEuint32 0, asEuint32 0, asEbool false).

(** The three handles, in packing order. *)
Definition pack_cts (acc : euint32 * euint32 * ebool) : list bytes32 :=
  let '(sum, count, anyFlagTrue) := acc in
  let average := fhe_div sum count in
  let isAverageHigh := fhe_ge average (asEuint32 100) in
  [euint32_toBytes32 average; ebool_toBytes32 anyFlagTrue; ebool_toBytes32 isAverageHigh].

(** The loop and the packing as a call: with [dataCount = 2^256 - 1] the
    last [i++] overflows. *)
Definition rebuild_cts : M (list bytes32) :=
  s <- get ;;
  if dataCount s =? MAX_UINT256 then revert Panic
  else ret (pack_cts (fold_ledger s)).

Definition _hashCiphertexts (cts : list bytes32) : bytes32 :=
  keccak256_encode cts this_address.

(** ** Requesting a reveal (lines 874-907) *)

(** [oracleId] is what [FHE.requestDecryption] returns for this call. *)
Definition requestAggregateDecryption (env : Env) (oracleId : Z) : M unit :=
  whenNotPaused ;;
  decryptionRequestCooldown env (msg_sender env) ;;
  s <- get ;;
  (if dataCount s =? 0 then revert InvalidBatch else ret tt) ;;
  (if batchOpen s then revert BatchClosed else ret tt) ;;
  cts <- rebuild_cts ;;
  let hash := _hashCiphertexts cts in
  let requestId := oracleId in
  modify (fun s => set_decryptionContexts
            (<[requestId := {| batchId := currentBatchId s;
                               stateHash := hash;
                               processed := false |}]> (decryptionContexts s)) s) ;;
  modify (fun s => set_lastDecryptionRequestTime
            (<[msg_sender env := block_timestamp env]> (lastDecryptionRequestTime s)) s) ;;
  s <- get ;;
  emit (DecryptionRequested requestId (currentBatchId s) hash).

(** ** The callback (lines 909-952) *)

(** [b.slice(start, len)]: reverts when the range leaves [b]. *)
Definition slice (b : bytes) (start len : nat) : M bytes :=
  if (start + len <=? length b)%nat then ret (take len (drop start b))
  else revert DecodeRevert.

(** [abi.decode(w, (uint256))]: the first word, which must be there. *)
Definition abi_decode_uint256 (w : bytes) : M Z :=
  if (length w <? 32)%nat then revert DecodeRevert
  else ret (be_value (take 32 w)).

(** [abi.decode(w, (bool))]: the first word, which must be 0 or 1. *)
Definition abi_decode_bool (w : bytes) : M bool :=
  v <- abi_decode_uint256 w ;;
  if v =? 0 then ret false
  else if v =? 1 then ret true
  else revert DecodeRevert.

Definition myCallback (env : Env) (requestId : Z) (cleartexts proof : bytes) : M unit :=
  (* 1. replay guard *)
  s <- get ;;
  (if processed (context_of s requestId) then revert ReplayAttempt else ret tt) ;;
  (* 2. state verification *)
  cts <- rebuild_cts ;;
  let currentHash := _hashCiphertexts cts in
  (if negb (bool_decide (currentHash = stateHash (context_of s requestId)))
   then revert StateMismatch else ret tt) ;;
  (* 3. proof verification *)
  (if checkSignatures requestId cleartexts proof then ret tt
   else revert SignatureRevert) ;;
  (* 4. decode and finalize *)
  w0 <- slice cleartexts 0 32 ;;
  r0 <- abi_decode_uint256 w0 ;;
  w1 <- slice cleartexts 32 32 ;;
  f0 <- abi_decode_bool w1 ;;
  w2 <- slice cleartexts 64 32 ;;
  r1 <- abi_decode_uint256 w2 ;;
  let results := [r0; r1] in
  let flags := [f0] in
  modify (fun s => set_decryptionContexts
            (<[requestId := {| batchId := batchId (context_of s requestId);
                               stateHash := stateHash (context_of s requestId);
                               processed := true |}]> (decryptionContexts s)) s) ;;
  s <- get ;;
  emit (DecryptionCompleted requestId (batchId (context_of s requestId)) results flags).

(** ** Transactions *)

Inductive Call :=
| CallTransferOwnership (newOwner : address)
| CallAddProvider (provider : address)
| CallRemoveProvider (provider : address)
| CallSetCooldown (newCooldownSeconds : Z)
| CallPause
| CallUnpause
| CallOpenBatch
| CallCloseBatch
| CallSubmit (data : euint32) (flag : ebool)
| CallRequest (oracleId : Z)
| CallCallback (requestId : Z) (cleartexts proof : bytes).

Definition dispatch (env : Env) (c : Call) : M unit :=
  match c with
  | CallTransferOwnership a => transferOwnership env a
  | CallAddProvider a => addProvider env a
  | CallRemoveProvider a => removeProvider env a
  | CallSetCooldown v => setCooldown env v
  | CallPause => pause env
  | CallUnpause => unpause env
  | CallOpenBatch => openBatch env
  | CallCloseBatch => closeBatch env
  | CallSubmit d f => submitEncryptedData env d f
  | CallRequest id => requestAggregateDecryption env id
  | CallCallback id c p => myCallback env id c p
  end.

(** A transaction: the state after the call when it returns, the state
    before it when it reverts. *)
Definition transact (m : M unit) (s : State) : State * option Error :=
  match m s with
  | Done _ s' => (s', None)
  | Revert e _ => (s, Some e)
  end.

Definition step (s : State) (tx : Env * Call) : State :=
  fst (transact (dispatch (fst tx) (snd tx)) s).

(** A history of transactions, oldest first. *)
Definition run (txs : list (Env * Call)) (s : State) : State :=
  fold_left step txs s.

(** The ids carried by the [DataSubmitted] events of a log. *)
Definition submitted_ids (evs : list Event) : list Z :=
  omap (fun ev => match ev with DataSubmitted _ _ i => Some i | _ => None end) evs.

Definition completions_of (requestId : Z) (evs : list Event) : list Event :=
  List.filter (fun ev => match ev with
                    | DecryptionCompleted r _ _ _ => r =? requestId
                    | _ => false
                    end) evs.

(** ** Vocabulary of the statements *)

(** The state a successful callback leaves: the latch set, one event. *)
Definition finalized (s : State) (requestId : Z)
    (results : list Z) (flags : list bool) : State :=
  let c := context_of s requestId in
  set_events
    (events s ++ [DecryptionCompleted requestId (batchId c) results flags])
    (set_decryptionContexts
       (<[requestId := {| batchId := batchId c;
                          stateHash := stateHash c;
                          processed := true |}]> (decryptionContexts s)) s).

(** The [n]-th 32-byte word of a byte string, as a number. *)
Definition word (n : nat) (b : bytes) : Z := be_value (take 32 (drop (32 * n) b)).

(** A cleartext the callback can decode: three words, the second a boolean. *)
Definition well_formed_cleartexts (b : bytes) : bool :=
  (96 <=? length b)%nat && (word 1 b <=? 1).

(** What the oracle sends back for the handles [cts]: their plaintexts
    under [dec32], one 32-byte word each, in the order of [cts]. *)
Definition oracle_cleartexts (dec32 : bytes32 -> Z) (cts : list bytes32) : bytes :=
  concat (map abi_encode_uint256 (map dec32 cts)).

(** The [count] handle after [n] turns of the loop. *)
Definition count_after (n : nat) : euint32 :=
  Nat.iter n (fun c => fhe_add c (asEuint32 1)) (asEuint32 0).

(** The deadline test of the request cooldown passes. *)
Definition request_cooldown_over (env : Env) (s : State) : Prop :=
  let deadline :=
    mapping_get 0 (lastDecryptionRequestTime s) (msg_sender env) + cooldownSeconds s in
  deadline <= MAX_UINT256 /\ deadline <= block_timestamp env.

(** The ledger invariant: the stored keys and the logged ids are
    [1 .. dataCount]. *)
Definition ledger_ok (s : State) : Prop :=
  0 <= dataCount s /\
  (forall i, is_Some (encryptedData s !! i) <-> 1 <= i <= dataCount s) /\
  (forall i, is_Some (encryptedFlags s !! i) <-> 1 <= i <= dataCount s) /\
  submitted_ids (events s) = seqZ 1 (dataCount s).

(** No transaction of the history is a request to which the oracle gave
    the id [requestId]. *)
Definition id_not_reissued (requestId : Z) (txs : list (Env * Call)) : Prop :=
  Forall (fun tx => match snd tx with
                    | CallRequest id => id <> requestId
                    | _ => True
                    end) txs.

End Functions.

(** ** Vocabulary of the further properties *)

Section Vocabulary.
Context `{F : FHELib}.

(** The calls that carry the [onlyOwner] modifier. *)
Definition is_admin_call (c : Call) : bool :=
  match c with
  | CallTransferOwnership _ | CallAddProvider _ | CallRemoveProvider _
  | CallSetCooldown _ | CallPause | CallUnpause | CallOpenBatch | CallCloseBatch => true
  | CallSubmit _ _ | CallRequest _ | CallCallback _ _ _ => false
  end.

(** The calls that carry the [whenNotPaused] modifier. *)
Definition is_pausable_call (c : Call) : bool :=
  match c with
  | CallPause | CallOpenBatch | CallCloseBatch | CallSubmit _ _ | CallRequest _ => true
  | _ => false
  end.

(** The deadline test of the submission cooldown passes. *)
Definition submission_cooldown_over (env : Env) (s : State) : Prop :=
  let deadline :=
    mapping_get 0 (lastSubmissionTime s) (msg_sender env) + cooldownSeconds s in
  deadline <= MAX_UINT256 /\ deadline <= block_timestamp env.

(** The [DecryptionRequested] events of a log that carry [requestId]. *)
Definition requests_of (requestId : Z) (evs : list Event) : list Event :=
  List.filter (fun ev => match ev with
                         | DecryptionRequested r _ _ => r =? requestId
                         | _ => false
                         end) evs.

(** A request for [requestId] is stored and waits for its callback. *)
Definition pending (s : State) (requestId : Z) : bool :=
  match decryptionContexts s !! requestId with
  | Some c => negb (processed c)
  | None => false
  end.

(** The ledger proper: what the commitment is computed from. *)
Definition same_ledger (s s' : State) : Prop :=
  dataCount s' = dataCount s /\
  encryptedData s' = encryptedData s /\
  encryptedFlags s' = encryptedFlags s.

(** The plaintexts of the stored contributions, in id order. *)
Definition ledger_values (dec_u : euint32 -> Z) (s : State) : list Z :=
  map (fun i => dec_u (mapping_get euint32_zero (encryptedData s) i))
      (seqZ 1 (dataCount s)).

Definition ledger_flags (dec_b : ebool -> bool) (s : State) : list bool :=
  map (fun i => dec_b (mapping_get ebool_zero (encryptedFlags s) i))
      (seqZ 1 (dataCount s)).

Definition sum_Z (l : list Z) : Z := fold_right Z.add 0 l.

End Vocabulary.

(** ** What the proofs assume of the library *)

(** Plaintext semantics: what the handles built by the library decrypt
    to.  [dec_u], [dec_b] read typed handles, [dec32] reads the packed
    [bytes32] handle the oracle is given (a boolean comes back as 0 or 1). *)
Record Homomorphic `{F : FHELib}
    (dec_u : euint32 -> Z) (dec_b : ebool -> bool) (dec32 : bytes32 -> Z) : Prop := {
  dec_asEuint32 : forall v, 0 <= v < 2 ^ 32 -> dec_u (asEuint32 v) = v;
  dec_asEbool : forall b, dec_b (asEbool b) = b;
  dec_add : forall a b, dec_u (fhe_add a b) = (dec_u a + dec_u b) mod 2 ^ 32;
  dec_div : forall a b, dec_u b <> 0 -> dec_u (fhe_div a b) = dec_u a / dec_u b;
  dec_ge : forall a b, dec_b (fhe_ge a b) = (dec_u b <=? dec_u a);
  dec_or : forall a b, dec_b (fhe_or a b) = dec_b a || dec_b b;
  dec32_euint32 : forall a, dec32 (euint32_toBytes32 a) = dec_u a;
  dec32_ebool : forall a, dec32 (ebool_toBytes32 a) = if dec_b a then 1 else 0
}.

(** Collision freedom: a handle names the computation that produced it
    (so a sum is never one of its own summands: [rank] grows), and the
    hash separates distinct inputs. *)
Record CollisionFree `{F : FHELib} (rank : euint32 -> nat) : Prop := {
  rank_add : forall a b, (rank a < rank (fhe_add a b))%nat;
  div_inj : forall a b a' b', fhe_div a b = fhe_div a' b' -> a = a' /\ b = b';
  toBytes32_inj : forall a a', euint32_toBytes32 a = euint32_toBytes32 a' -> a = a';
  keccak_inj : forall cts cts' addr,
    keccak256_encode cts addr = keccak256_encode cts' addr -> cts = cts'
}.

(** ** A symbolic library

    Handles are the terms that built them, the hash is a constructor.
    This is an instance of [FHELib] on which every definition above
    computes. *)
Module Sym.

Inductive sym_uint :=
| UFresh                        (* the zero handle: never initialised *)
| UInput (v : Z)                (* an input ciphertext, of plaintext [v] *)
| UTrivial (v : Z)              (* FHE.asEuint32(v) *)
| UAdd (a b : sym_uint)
| UDiv (a b : sym_uint).

Inductive sym_bool :=
| BFresh
| BInput (b : bool)
| BTrivial (b : bool)           (* FHE.asEbool(b) *)
| BOr (a b : sym_bool)
| BGe (a b : sym_uint).

Global Instance sym_uint_eq_dec : EqDecision sym_uint.
Proof. solve_decision. Defined.
Global Instance sym_bool_eq_dec : EqDecision sym_bool.
Proof. solve_decision. Defined.

Definition sym_bytes32 := gen_tree (sym_uint + sym_bool + Z).

Definition hzero : sym_bytes32 := GenNode 0 [].
Definition huint (h : sym_uint) : sym_bytes32 := GenLeaf (inl (inl h)).
Definition hbool (h : sym_bool) : sym_bytes32 := GenLeaf (inl (inr h)).
Definition hkeccak (cts : list sym_bytes32) (a : address) : sym_bytes32 :=
  GenNode 1 (GenLeaf (inr a) :: cts).

Definition initialized_u (h : sym_uint) : bool :=
  match h with UFresh => false | _ => true end.
Definition initialized_b (h : sym_bool) : bool :=
  match h with BFresh => false | _ => true end.

(** The stand-in verifier accepts the one-byte proof [01]. *)
Definition check (requestId : Z) (cleartexts proof : bytes) : bool :=
  match proof with
  | [Byte.x01] => true
  | _ => false
  end.

Fixpoint dec_u (h : sym_uint) : Z :=
  match h with
  | UFresh => 0
  | UInput v => v mod 2 ^ 32
  | UTrivial v => v mod 2 ^ 32
  | UAdd a b => (dec_u a + dec_u b) mod 2 ^ 32
  | UDiv a b => if dec_u b =? 0 then 2 ^ 32 - 1 else dec_u a / dec_u b
  end.

Fixpoint dec_b (h : sym_bool) : bool :=
  match h with
  | BFresh => false
  | BInput b => b
  | BTrivial b => b
  | BOr a b => dec_b a || dec_b b
  | BGe a b => dec_u b <=? dec_u a
  end.

Definition dec32 (h : sym_bytes32) : Z :=
  match h with
  | GenLeaf (inl (inl u)) => dec_u u
  | GenLeaf (inl (inr b)) => if dec_b b then 1 else 0
  | _ => 0
  end.

Fixpoint rank (h : sym_uint) : nat :=
  match h with
  | UAdd a b => S (rank a + rank b)
  | UDiv a b => S (rank a + rank b)
  | _ => O
  end.

Global Instance lib : FHELib := {|
  euint32 := sym_uint;
  ebool := sym_bool;
  bytes32 := sym_bytes32;
  bytes32_zero := hzero;
  euint32_zero := UFresh;
  ebool_zero := BFresh;
  asEuint32 := UTrivial;
  asEbool := BTrivial;
  fhe_add := UAdd;
  fhe_div := UDiv;
  fhe_ge := BGe;
  fhe_or := BOr;
  euint32_toBytes32 := huint;
  ebool_toBytes32 := hbool;
  euint32_isInitialized := initialized_u;
  ebool_isInitialized := initialized_b;
  FHE_isInitialized := true;
  checkSignatures := check;
  keccak256_encode := hkeccak;
  this_address := 4096
|}.

(** *** A history on the symbolic library

    Address 1 deploys the contract at time 1000, opens a batch, submits
    one contribution, closes the batch and requests a reveal, to which
    the oracle gives the id 7. *)
Definition at_time (t : Z) : Env := mkEnv 1 t.
Definition deployer : Env := at_time 1000.
Definition genesis : State := constructor deployer.
Definition opened : State := step genesis (at_time 1100, CallOpenBatch).
Definition submitted : State := step opened (at_time 2000, CallSubmit UFresh BFresh).
Definition closed : State := step submitted (at_time 2100, CallCloseBatch).
Definition requested : State := step closed (at_time 2200, CallRequest 7).

(** The same, but paused after the submission, the batch still open. *)
Definition paused_open : State := step submitted (at_time 2100, CallPause).

(** The oracle's cleartext for [requested], and a cleartext whose third
    word is 2. *)
Definition honest_cleartexts : bytes :=
  oracle_cleartexts dec32 (pack_cts (fold_ledger closed)).
Definition odd_cleartexts : bytes :=
  abi_encode_uint256 0 ++ abi_encode_uint256 0 ++ abi_encode_uint256 2.

(** After the request: the batch is reopened and a second contribution
    comes in. *)
Definition late_history : list (Env * Call) :=
  [(at_time 2300, CallOpenBatch); (at_time 2400, CallSubmit UFresh BFresh)].

(** The whole history, from deployment on. *)
Definition full_history : list (Env * Call) :=
  [(at_time 1100, CallOpenBatch);
   (at_time 2000, CallSubmit UFresh BFresh);
   (at_time 2100, CallCloseBatch);
   (at_time 2200, CallRequest 7);
   (at_time 2300, CallOpenBatch);
   (at_time 2400, CallSubmit UFresh BFresh)].

(** A ledger holding [10, 20, 30] with flags [false, false, true]. *)
Definition ledger3 : State :=
  set_dataCount 3
    (set_encryptedData
       (<[3 := UInput 30]> (<[2 := UInput 20]> (<[1 := UInput 10]> ∅)))
       (set_encryptedFlags
          (<[3 := BInput true]> (<[2 := BInput false]> (<[1 := BInput false]> ∅)))
          genesis)).

(** *** More of the history, for the further properties *)

(** Address 2: neither the owner nor a provider. *)
Definition stranger : Env := mkEnv 2 5000.

(** After the request: the owner opens the batch twice, which moves the
    batch id to 2, and pauses the contract; nothing is submitted. *)
Definition quiet_history : list (Env * Call) :=
  [(at_time 2300, CallOpenBatch); (at_time 2350, CallOpenBatch);
   (at_time 2360, CallPause)].

(** The request of id 7 finalized. *)
Definition finalized7 : State :=
  step requested (at_time 3000, CallCallback 7 honest_cleartexts [Byte.x01]).

(** The cooldown set to the largest [uint256], after one submission. *)
Definition locked : State :=
  step submitted (at_time 2050, CallSetCooldown MAX_UINT256).

(** Address 2 made a provider while the first batch is open. *)
Definition two_providers : State := step opened (at_time 1200, CallAddProvider 2).

(** The owner has submitted; address 2 has not yet. *)
Definition first_of_two : State :=
  step two_providers (at_time 2000, CallSubmit UFresh BFresh).

End Sym.

(** * Verification *)

Section Proofs.
Context `{F : FHELib}.

(** ** Stepping through a call *)

Local Arguments Nat.leb : simpl never.
Local Arguments Nat.ltb : simpl never.
Local Arguments take : simpl never.
Local Arguments drop : simpl never.
Local Arguments be_value : simpl never.
Local Arguments Z.to_nat : simpl never.

Ltac unfold_call :=
  cbv [transferOwnership addProvider removeProvider setCooldown pause unpause
       openBatch closeBatch submitEncryptedData requestAggregateDecryption
       myCallback onlyOwner onlyProvider whenNotPaused submissionCooldown
       decryptionRequestCooldown _initIfNeeded_euint32 _initIfNeeded_ebool
       rebuild_cts require checked_add emit modify get bind ret revert
       abi_decode_bool abi_decode_uint256 slice dispatch transact step].

Ltac split_call := unfold_call; repeat (case_match; simplify_eq/=; try done).

Ltac clean_tests :=
  repeat match goal with
    | H : negb _ = true |- _ => apply negb_true_iff in H
    | H : negb _ = false |- _ => apply negb_false_iff in H
    | H : bool_decide _ = true |- _ => apply bool_decide_eq_true in H
    | H : bool_decide _ = false |- _ => apply bool_decide_eq_false in H
    | H : (_ =? _) = true |- _ => apply Z.eqb_eq in H
    | H : (_ =? _) = false |- _ => apply Z.eqb_neq in H
    | H : (_ <=? _) = true |- _ => apply Z.leb_le in H
    | H : (_ <=? _) = false |- _ => apply Z.leb_gt in H
    | H : (_ <? _) = true |- _ => apply Z.ltb_lt in H
    | H : (_ <? _) = false |- _ => apply Z.ltb_ge in H
    | H : (_ <=? _)%nat = true |- _ => apply Nat.leb_le in H
    | H : (_ <=? _)%nat = false |- _ => apply Nat.leb_gt in H
    | H : (_ <? _)%nat = true |- _ => apply Nat.ltb_lt in H
    | H : (_ <? _)%nat = false |- _ => apply Nat.ltb_ge in H
    | H : _ && _ = true |- _ => apply andb_true_iff in H; destruct H
    end.

Lemma context_of_insert (s s' : State) (requestId : Z) (c : DecryptionContext) :
  decryptionContexts s' = <[requestId := c]> (decryptionContexts s) ->
  context_of s' requestId = c.
Proof.
  intros E. unfold context_of, mapping_get. by rewrite E, lookup_insert_eq.
Qed.

Lemma context_of_insert_ne (s s' : State) (requestId other : Z) (c : DecryptionContext) :
  decryptionContexts s' = <[other := c]> (decryptionContexts s) ->
  other <> requestId ->
  context_of s' requestId = context_of s requestId.
Proof.
  intros E Hne. unfold context_of, mapping_get. by rewrite E, lookup_insert_ne.
Qed.

Lemma context_of_same (s s' : State) (requestId : Z) :
  decryptionContexts s' = decryptionContexts s ->
  context_of s' requestId = context_of s requestId.
Proof. intros E. unfold context_of. by rewrite E. Qed.

Lemma be_value_from_nonneg (b : bytes) (a : Z) :
  0 <= a -> 0 <= fold_left (fun acc x => acc * 256 + byte_val x) b a.
Proof.
  revert a. induction b as [|x b IH]; intros a Ha; simpl.
  - done.
  - apply IH. unfold byte_val. lia.
Qed.

Lemma be_value_nonneg (b : bytes) : 0 <= be_value b.
Proof. by apply be_value_from_nonneg. Qed.

Lemma word_of_slice (n : nat) (b : bytes) :
  be_value (take 32 (take 32 (drop (32 * n) b))) = word n b.
Proof. unfold word. by rewrite take_take, Nat.min_id. Qed.

(** Every outcome of the callback: a revert at the entry state, or
    the finalized state, with the three words of the cleartext. *)
Lemma myCallback_outcome (env : Env) (requestId : Z)
    (cleartexts proof : bytes) (s : State) :
  match myCallback env requestId cleartexts proof s with
  | Revert e s' => s' = s
  | Done _ s' =>
      processed (context_of s requestId) = false /\
      dataCount s <> MAX_UINT256 /\
      _hashCiphertexts (pack_cts (fold_ledger s)) = stateHash (context_of s requestId) /\
      checkSignatures requestId cleartexts proof = true /\
      well_formed_cleartexts cleartexts = true /\
      s' = finalized s requestId
             [word 0 cleartexts; word 2 cleartexts]
             [negb (word 1 cleartexts =? 0)]
  end.
Proof.
  pose proof (word_of_slice 0 cleartexts) as W0.
  pose proof (word_of_slice 1 cleartexts) as W1.
  pose proof (word_of_slice 2 cleartexts) as W2.
  change (32 * 0)%nat with 0%nat in W0.
  change (32 * 1)%nat with 32%nat in W1.
  change (32 * 2)%nat with 64%nat in W2.
  unfold well_formed_cleartexts.
  split_call; clean_tests.
  all: rewrite W0, W2; rewrite W1 in *.
  all: repeat split; try done.
  all: try (apply andb_true_iff; split; [apply Nat.leb_le|apply Z.leb_le]; lia).
  all: try (apply Z.leb_le; lia).
  all: unfold finalized.
  all: match goal with
       | |- context [context_of (set_decryptionContexts ?m ?s0) ?r] =>
           erewrite (context_of_insert s0 (set_decryptionContexts m s0)) by reflexivity
       end; simpl.
  all: do 4 f_equal.
  all: match goal with H : word 1 _ = _ |- _ => by rewrite H end.
Qed.

(** ** The replay latch *)

Lemma completions_of_snoc (requestId : Z) (evs : list Event) (ev : Event) :
  completions_of requestId (evs ++ [ev]) =
  completions_of requestId evs ++ completions_of requestId [ev].
Proof. unfold completions_of. apply List.filter_app. Qed.

Lemma latch_step (requestId : Z) (s : State) (tx : Env * Call) :
  processed (context_of s requestId) = true ->
  match snd tx with CallRequest id => id <> requestId | _ => True end ->
  processed (context_of (step s tx) requestId) = true /\
  completions_of requestId (events (step s tx)) = completions_of requestId (events s).
Proof.
  destruct tx as [env c]. intros Hp Hid. destruct c; simpl in Hid.
  11: {
    (* a callback that passes the latch is for another id *)
    unfold step, transact, dispatch; simpl.
    pose proof (myCallback_outcome env requestId0 cleartexts proof s) as Ho.
    destruct (myCallback env requestId0 cleartexts proof s); [|done].
    destruct Ho as (Hp0 & _ & _ & _ & _ & ->).
    assert (requestId0 <> requestId) as Hne by congruence.
    apply Z.eqb_neq in Hne as Hb.
    unfold finalized; simpl. rewrite completions_of_snoc; simpl.
    rewrite Hb, app_nil_r. split; [|done].
    rewrite <- Hp; f_equal; by eapply context_of_insert_ne. }
  all: split_call; clean_tests.
  all: rewrite ?completions_of_snoc; simpl; rewrite ?app_nil_r.
  all: try (split; [|done]).
  all: try (rewrite <- Hp; f_equal; by apply context_of_same).
  (* a request under another id *)
  rewrite <- Hp. f_equal. by eapply context_of_insert_ne.
Qed.

(** A callback on which every check passes returns, and leaves exactly
    [finalized]. *)
Lemma myCallback_ok (env : Env) (requestId : Z) (cleartexts proof : bytes) (s : State) :
  processed (context_of s requestId) = false ->
  dataCount s <> MAX_UINT256 ->
  _hashCiphertexts (pack_cts (fold_ledger s)) = stateHash (context_of s requestId) ->
  checkSignatures requestId cleartexts proof = true ->
  well_formed_cleartexts cleartexts = true ->
  myCallback env requestId cleartexts proof s =
    Done tt (finalized s requestId
               [word 0 cleartexts; word 2 cleartexts]
               [negb (word 1 cleartexts =? 0)]).
Proof.
  intros Hp Hn Hh Hc Hw. unfold well_formed_cleartexts in Hw. clean_tests.
  pose proof (be_value_nonneg (take 32 (drop 32 cleartexts))) as Hpos.
  pose proof (word_of_slice 0 cleartexts) as W0.
  pose proof (word_of_slice 1 cleartexts) as W1.
  pose proof (word_of_slice 2 cleartexts) as W2.
  change (32 * 0)%nat with 0%nat in W0.
  change (32 * 1)%nat with 32%nat in W1.
  change (32 * 2)%nat with 64%nat in W2.
  unfold word in *.
  split_call; clean_tests.
  all: try congruence.
  all: try (exfalso; rewrite ?length_take, ?length_drop in *; lia).
  all: unfold finalized; rewrite W0, W2.
  all: erewrite (context_of_insert s) by reflexivity; simpl.
  all: do 4 f_equal.
  - rewrite W1 in *. by destruct (Z.eqb_spec (be_value (take 32 (drop 32 cleartexts))) 0).
  - rewrite W1 in *. by destruct (Z.eqb_spec (be_value (take 32 (drop 32 cleartexts))) 0); [lia|].
Qed.

Lemma myCallback_replay (env : Env) (requestId : Z) (cleartexts proof : bytes) (s : State) :
  processed (context_of s requestId) = true ->
  myCallback env requestId cleartexts proof s = Revert ReplayAttempt s.
Proof. intros Hp. unfold myCallback, bind, get. by rewrite Hp. Qed.

Lemma latch_run (requestId : Z) (txs : list (Env * Call)) (s : State) :
  processed (context_of s requestId) = true ->
  id_not_reissued requestId txs ->
  processed (context_of (run txs s) requestId) = true /\
  completions_of requestId (events (run txs s)) = completions_of requestId (events s).
Proof.
  intros Hp Hids. revert s Hp.
  induction Hids as [|tx txs Htx _ IH]; intros s Hp; [done|].
  destruct (latch_step requestId s tx Hp Htx) as [Hp' Hev].
  destruct (IH _ Hp') as [Hp'' Hev'].
  simpl. split; [done|]. by rewrite Hev'.
Qed.

(** *** C1 *)

(** C1. When the context of [requestId] exists and is unprocessed, a
    first callback with a valid payload (commitment matching, proof
    accepted, cleartext well formed) finalizes it: the latch is set and
    one completion event is logged.  Any second callback for that id
    reverts with [ReplayAttempt] and changes nothing.  From then on, over
    every history in which the oracle gives that id to no new request,
    the latch stays set and no further completion is logged. *)
Theorem callback_finalizes_exactly_once (env : Env) (requestId : Z)
    (cleartexts proof : bytes) (s : State) (c : DecryptionContext) :
  decryptionContexts s !! requestId = Some c ->
  processed c = false ->
  dataCount s <> MAX_UINT256 ->
  _hashCiphertexts (pack_cts (fold_ledger s)) = stateHash c ->
  checkSignatures requestId cleartexts proof = true ->
  well_formed_cleartexts cleartexts = true ->
  exists s1,
    transact (myCallback env requestId cleartexts proof) s = (s1, None) /\
    decryptionContexts s1 !! requestId =
      Some {| batchId := batchId c; stateHash := stateHash c; processed := true |} /\
    events s1 = events s ++
      [DecryptionCompleted requestId (batchId c)
         [word 0 cleartexts; word 2 cleartexts] [negb (word 1 cleartexts =? 0)]] /\
    (forall env' cleartexts' proof',
       transact (myCallback env' requestId cleartexts' proof') s1 =
         (s1, Some ReplayAttempt)) /\
    (forall txs, id_not_reissued requestId txs ->
       processed (context_of (run txs s1) requestId) = true /\
       completions_of requestId (events (run txs s1)) =
         completions_of requestId (events s1)).
Proof.
  intros Hc Hp Hn Hh Hs Hw.
  assert (context_of s requestId = c) as Hctx
    by (unfold context_of, mapping_get; by rewrite Hc).
  subst c.
  eexists. split.
  { unfold transact. by rewrite myCallback_ok. }
  assert (processed (context_of (finalized s requestId
            [word 0 cleartexts; word 2 cleartexts] [negb (word 1 cleartexts =? 0)])
            requestId) = true) as Hlatch.
  { erewrite context_of_insert by reflexivity. done. }
  repeat split.
  - unfold finalized. simpl. by rewrite lookup_insert_eq.
  - intros env' ct' pf'. unfold transact. by rewrite myCallback_replay.
  - by apply latch_run.
  - by apply latch_run.
Qed.

(** ** The ledger between a request and its callback *)

Lemma fold_loop_count (data : gmap Z euint32) (flags : gmap Z ebool)
    (n : nat) (i : Z) (sum count : euint32) (anyFlagTrue : ebool) :
  (fold_loop data flags n i (sum, count, anyFlagTrue)).1.2 =
  Nat.iter n (fun c => fhe_add c (asEuint32 1)) count.
Proof.
  revert i sum count anyFlagTrue.
  induction n as [|n IH]; intros i sum count anyFlagTrue; [done|].
  cbn [fold_loop]. rewrite IH. by rewrite Nat.iter_succ_r.
Qed.

Lemma fold_ledger_count (s : State) :
  (fold_ledger s).1.2 = count_after (Z.to_nat (dataCount s)).
Proof. unfold fold_ledger. apply fold_loop_count. Qed.

(** The ledger only grows, and a contribution makes it grow by one. *)
Lemma dataCount_step (s : State) (tx : Env * Call) :
  dataCount s <= dataCount (step s tx) /\
  match tx with
  | (env, CallSubmit d f) =>
      snd (transact (submitEncryptedData env d f) s) = None ->
      dataCount (step s tx) = dataCount s + 1
  | _ => True
  end.
Proof.
  destruct tx as [env c]. destruct c.
  11: {
    unfold step, transact, dispatch; simpl.
    pose proof (myCallback_outcome env requestId cleartexts proof s) as Ho.
    destruct (myCallback env requestId cleartexts proof s); [|done].
    destruct Ho as (_ & _ & _ & _ & _ & ->). done. }
  all: split_call; clean_tests; try lia; try (split; [lia|done]).
Qed.

Lemma dataCount_run (txs : list (Env * Call)) (s : State) :
  dataCount s <= dataCount (run txs s).
Proof.
  revert s. induction txs as [|tx txs IH]; intros s; simpl; [lia|].
  pose proof (dataCount_step s tx) as [? _]. specialize (IH (step s tx)).
  unfold run in *. lia.
Qed.

(** A stored commitment changes only when the oracle gives its id to a
    new request. *)
Lemma stateHash_step (requestId : Z) (s : State) (tx : Env * Call) :
  match snd tx with CallRequest id => id <> requestId | _ => True end ->
  stateHash (context_of (step s tx) requestId) = stateHash (context_of s requestId).
Proof.
  destruct tx as [env c]. intros Hid. destruct c; simpl in Hid.
  11: {
    unfold step, transact, dispatch; simpl.
    pose proof (myCallback_outcome env requestId0 cleartexts proof s) as Ho.
    destruct (myCallback env requestId0 cleartexts proof s); [|done].
    destruct Ho as (_ & _ & _ & _ & _ & ->).
    destruct (decide (requestId0 = requestId)) as [->|Hne].
    - by erewrite context_of_insert by reflexivity.
    - f_equal. by eapply context_of_insert_ne. }
  all: split_call; clean_tests.
  all: try (f_equal; by apply context_of_same).
  f_equal. by eapply context_of_insert_ne.
Qed.

Lemma stateHash_run (requestId : Z) (txs : list (Env * Call)) (s : State) :
  id_not_reissued requestId txs ->
  stateHash (context_of (run txs s) requestId) = stateHash (context_of s requestId).
Proof.
  intros Hids. revert s.
  induction Hids as [|tx txs Htx _ IH]; intros s; [done|].
  simpl. rewrite IH. by apply stateHash_step.
Qed.

(** What a successful request leaves behind. *)
Lemma request_outcome (env : Env) (oracleId : Z) (s : State) :
  match requestAggregateDecryption env oracleId s with
  | Revert e s' => s' = s
  | Done _ s' =>
      paused s = false /\
      dataCount s <> 0 /\
      dataCount s <> MAX_UINT256 /\
      batchOpen s = false /\
      dataCount s' = dataCount s /\
      context_of s' oracleId =
        {| batchId := currentBatchId s;
           stateHash := _hashCiphertexts (pack_cts (fold_ledger s));
           processed := false |}
  end.
Proof.
  split_call; clean_tests.
  repeat split; try done.
  by erewrite context_of_insert by reflexivity.
Qed.

Section Commitment.
Variable rank : euint32 -> nat.
Hypothesis CF : CollisionFree rank.

Lemma rank_count_after_lt (n m : nat) :
  (n < m)%nat -> (rank (count_after n) < rank (count_after m))%nat.
Proof.
  induction 1 as [|m _ IH].
  - apply (rank_add rank CF).
  - etrans; [exact IH|]. apply (rank_add rank CF).
Qed.

Lemma count_after_inj (n m : nat) : count_after n = count_after m -> n = m.
Proof.
  intros E. destruct (Nat.lt_trichotomy n m) as [H|[H|H]]; [|done|].
  all: apply rank_count_after_lt in H; rewrite E in H; lia.
Qed.

(** Two ledgers with the same commitment hold the same number of
    contributions. *)
Lemma commitment_inj (s s' : State) :
  0 <= dataCount s -> 0 <= dataCount s' ->
  _hashCiphertexts (pack_cts (fold_ledger s)) =
    _hashCiphertexts (pack_cts (fold_ledger s')) ->
  dataCount s = dataCount s'.
Proof.
  intros Hs Hs' E. unfold _hashCiphertexts in E.
  apply (keccak_inj rank CF) in E.
  pose proof (fold_ledger_count s) as C. pose proof (fold_ledger_count s') as C'.
  destruct (fold_ledger s) as [[sum count] anyf].
  destruct (fold_ledger s') as [[sum' count'] anyf'].
  simpl in *. apply (f_equal head) in E. simpl in E. injection E as E.
  apply (toBytes32_inj rank CF), (div_inj rank CF) in E as [_ E].
  rewrite C, C' in E. apply count_after_inj in E. lia.
Qed.

End Commitment.

(** *** C2 *)

(** C2. Let a request succeed and stay pending.  If, in the history that
    follows, a contribution is accepted (and the oracle gives the id to
    no other request), then the callback for that request reverts with
    [StateMismatch], whatever cleartext and proof it carries: the
    commitment recomputed from the grown ledger differs from the stored
    one.  The library's handles and the hash are taken collision free. *)
Theorem stale_commitment_rejected (rank : euint32 -> nat) (CF : CollisionFree rank)
    (env0 : Env) (requestId : Z) (s0 s1 : State)
    (txs1 : list (Env * Call)) (envS : Env) (data : euint32) (flag : ebool)
    (txs2 : list (Env * Call))
    (envC : Env) (cleartexts proof : bytes) :
  0 <= dataCount s0 ->
  requestAggregateDecryption env0 requestId s0 = Done tt s1 ->
  snd (transact (submitEncryptedData envS data flag) (run txs1 s1)) = None ->
  id_not_reissued requestId (txs1 ++ (envS, CallSubmit data flag) :: txs2) ->
  let s := run (txs1 ++ (envS, CallSubmit data flag) :: txs2) s1 in
  processed (context_of s requestId) = false ->
  dataCount s <> MAX_UINT256 ->
  myCallback envC requestId cleartexts proof s = Revert StateMismatch s /\
  transact (myCallback envC requestId cleartexts proof) s = (s, Some StateMismatch).
Proof.
  intros H0 Hreq Hsub Hids s Hp Hmax.
  pose proof (request_outcome env0 requestId s0) as Ho. rewrite Hreq in Ho.
  destruct Ho as (_ & _ & _ & _ & Hcount & Hctx).
  (* the stored commitment is still the one of the request *)
  assert (stateHash (context_of s requestId) =
          _hashCiphertexts (pack_cts (fold_ledger s0))) as Hstored.
  { unfold s. rewrite stateHash_run by done. by rewrite Hctx. }
  (* the ledger has grown *)
  assert (dataCount s0 < dataCount s) as Hgrow.
  { unfold s, run. rewrite fold_left_app. simpl.
    pose proof (dataCount_run txs1 s1) as G1.
    pose proof (dataCount_step (run txs1 s1) (envS, CallSubmit data flag)) as [_ G2].
    specialize (G2 Hsub).
    pose proof (dataCount_run txs2
                  (step (run txs1 s1) (envS, CallSubmit data flag))) as G3.
    unfold run in *. lia. }
  assert (_hashCiphertexts (pack_cts (fold_ledger s)) <>
          stateHash (context_of s requestId)) as Hneq.
  { rewrite Hstored. intros E.
    apply (commitment_inj rank CF) in E; lia. }
  assert (myCallback envC requestId cleartexts proof s = Revert StateMismatch s) as Hrev.
  { cbv [myCallback rebuild_cts bind get ret revert]. rewrite Hp.
    apply Z.eqb_neq in Hmax. rewrite Hmax.
    by rewrite bool_decide_eq_false_2. }
  split; [done|]. unfold transact. by rewrite Hrev.
Qed.

(** *** C9 *)

(** C9. A callback for an id that has no stored context reads the zero
    context: the latch is off and the stored commitment is zero.  As the
    hash of a commitment is never zero, the call reverts with
    [StateMismatch] whatever cleartext and proof it carries (so also when
    the verifier would accept them), and writes nothing. *)
Theorem forged_callback_rejected
    (keccak_nonzero : forall cts addr, keccak256_encode cts addr <> bytes32_zero)
    (env : Env) (requestId : Z) (cleartexts proof : bytes) (s : State) :
  decryptionContexts s !! requestId = None ->
  dataCount s <> MAX_UINT256 ->
  myCallback env requestId cleartexts proof s = Revert StateMismatch s /\
  transact (myCallback env requestId cleartexts proof) s = (s, Some StateMismatch).
Proof.
  intros Hnone Hmax.
  assert (context_of s requestId = context_zero) as Hctx
    by (unfold context_of, mapping_get; by rewrite Hnone).
  assert (myCallback env requestId cleartexts proof s = Revert StateMismatch s) as Hrev.
  { cbv [myCallback rebuild_cts bind get ret revert]. rewrite Hctx. simpl.
    apply Z.eqb_neq in Hmax. rewrite Hmax.
    rewrite bool_decide_eq_false_2; [done|]. apply keccak_nonzero. }
  split; [done|]. unfold transact. by rewrite Hrev.
Qed.

(** ** The guards of a request *)

(** *** C5 (as amended) *)

(** C5, amended. A request never succeeds while the batch is open or the
    ledger is empty.  Once the pause and cooldown guards are passed, it
    reverts with [InvalidBatch] (the spec's EmptyBatch) when
    [dataCount = 0], also if the batch is open; and with [BatchClosed]
    (the contract's error for the spec's BatchStillOpen) when the batch is
    open and [dataCount <> 0].  The pause and cooldown guards come first
    and answer [Paused], [Panic] or [CooldownActive]. *)
Theorem request_batch_guards (env : Env) (oracleId : Z) (s : State) :
  (batchOpen s = true \/ dataCount s = 0 ->
     exists e, requestAggregateDecryption env oracleId s = Revert e s) /\
  (paused s = false -> request_cooldown_over env s ->
     (dataCount s = 0 ->
        requestAggregateDecryption env oracleId s = Revert InvalidBatch s) /\
     (dataCount s <> 0 -> batchOpen s = true ->
        requestAggregateDecryption env oracleId s = Revert BatchClosed s)) /\
  (paused s = true ->
     requestAggregateDecryption env oracleId s = Revert Paused s) /\
  (paused s = false ->
     mapping_get 0 (lastDecryptionRequestTime s) (msg_sender env) + cooldownSeconds s
       <= MAX_UINT256 ->
     block_timestamp env <
       mapping_get 0 (lastDecryptionRequestTime s) (msg_sender env) + cooldownSeconds s ->
     requestAggregateDecryption env oracleId s = Revert CooldownActive s).
Proof.
  unfold request_cooldown_over. repeat split.
  - intros Hbad.
    pose proof (request_outcome env oracleId s) as Ho.
    destruct (requestAggregateDecryption env oracleId s) as [[] s'|e s'].
    + destruct Ho as (_ & ? & _ & ? & _). destruct Hbad; congruence.
    + subst. by eexists.
  - intros Hz. split_call; clean_tests; lia.
  - intros Hnz Hopen. split_call; clean_tests; lia.
  - intros Hpaused. split_call.
  - intros Hrun Hfit Hearly. split_call; clean_tests; lia.
Qed.

(** *** C10 *)

(** C10. A request looks at neither the owner nor the provider set: it
    never answers [NotOwner] or [NotProvider]; it returns exactly when
    the contract is not paused, the caller's request cooldown is over,
    the ledger is not empty (nor full) and the batch is closed; and with
    another owner and another provider set the outcome is the same. *)
Theorem request_needs_no_role (env : Env) (oracleId : Z) (s : State) :
  snd (transact (requestAggregateDecryption env oracleId) s) <> Some NotOwner /\
  snd (transact (requestAggregateDecryption env oracleId) s) <> Some NotProvider /\
  (snd (transact (requestAggregateDecryption env oracleId) s) = None <->
     paused s = false /\ request_cooldown_over env s /\
     dataCount s <> 0 /\ dataCount s <> MAX_UINT256 /\ batchOpen s = false) /\
  (forall (o : address) (p : gmap Z bool),
     transact (requestAggregateDecryption env oracleId) (set_owner o (set_isProvider p s)) =
     (set_owner o (set_isProvider p
        (fst (transact (requestAggregateDecryption env oracleId) s))),
      snd (transact (requestAggregateDecryption env oracleId) s))).
Proof.
  unfold request_cooldown_over. split; [|split; [|split; [split|]]].
  - split_call.
  - split_call.
  - split_call; clean_tests; intros _; repeat split; try done; lia.
  - intros (Hp & (Ho & Hd) & Hn & Hm & Hb).
    split_call; clean_tests; try lia; congruence.
  - intros o p. split_call; clean_tests; try lia; congruence.
Qed.

(** ** Contribution ids *)

Lemma submitted_ids_snoc (evs : list Event) (ev : Event) :
  submitted_ids (evs ++ [ev]) = submitted_ids evs ++ submitted_ids [ev].
Proof. unfold submitted_ids. apply omap_app. Qed.

Lemma seqZ_snoc (n : Z) : 0 <= n -> seqZ 1 (n + 1) = seqZ 1 n ++ [n + 1].
Proof.
  intros Hn. rewrite seqZ_app by lia. f_equal.
  rewrite seqZ_cons by lia. rewrite seqZ_nil by lia. f_equal. lia.
Qed.

(** What an accepted submission writes. *)
Lemma submit_outcome (env : Env) (data : euint32) (flag : ebool) (s : State) :
  match submitEncryptedData env data flag s with
  | Revert e s' => s' = s
  | Done _ s' =>
      dataCount s' = dataCount s + 1 /\
      encryptedData s' = <[dataCount s + 1 := data]> (encryptedData s) /\
      encryptedFlags s' = <[dataCount s + 1 := flag]> (encryptedFlags s) /\
      events s' = events s ++
        [DataSubmitted (msg_sender env) (currentBatchId s) (dataCount s + 1)]
  end.
Proof. split_call. Qed.

Lemma ledger_ok_step (s : State) (tx : Env * Call) :
  ledger_ok s -> ledger_ok (step s tx).
Proof.
  destruct tx as [env c]. intros (Hn & Hd & Hf & Hids). destruct c.
  11: {
    unfold step, transact, dispatch; simpl.
    pose proof (myCallback_outcome env requestId cleartexts proof s) as Ho.
    destruct (myCallback env requestId cleartexts proof s); [|done].
    destruct Ho as (_ & _ & _ & _ & _ & ->).
    unfold ledger_ok, finalized; simpl.
    by rewrite submitted_ids_snoc, Hids, app_nil_r. }
  9: {
    unfold step, transact, dispatch; simpl.
    pose proof (submit_outcome env data flag s) as Ho.
    destruct (submitEncryptedData env data flag s) as [[] s'|]; [|done].
    destruct Ho as (Hc & Hdata & Hflags & Hev). simpl.
    unfold ledger_ok. rewrite Hc, Hdata, Hflags, Hev.
    split; [lia|]. split; [|split].
    - intros i. rewrite lookup_insert_is_Some, Hd. lia.
    - intros i. rewrite lookup_insert_is_Some, Hf. lia.
    - rewrite submitted_ids_snoc, Hids. simpl. by rewrite seqZ_snoc. }
  all: split_call; unfold ledger_ok; simpl.
  all: by rewrite submitted_ids_snoc, Hids, app_nil_r.
Qed.

Lemma ledger_ok_run (txs : list (Env * Call)) (s : State) :
  ledger_ok s -> ledger_ok (run txs s).
Proof.
  revert s. induction txs as [|tx txs IH]; intros s Hs; [done|].
  simpl. by apply IH, ledger_ok_step.
Qed.

Lemma ledger_ok_constructor (env : Env) : ledger_ok (constructor env).
Proof.
  unfold ledger_ok; simpl. split; [lia|]. split; [|split; [|done]].
  all: intros i; rewrite lookup_empty; split; [by intros []|lia].
Qed.

(** *** C7 *)

(** C7. After any history of calls on a freshly deployed contract (calls
    of any kind, by anyone, returning or reverting, across any number of
    batches), the stored contributions are those of keys
    [1 .. dataCount], and the ids given to the accepted submissions are,
    in order of arrival, [1, 2, ..., dataCount]: the [k]-th accepted
    submission (from 0) got id [k + 1], and no id was given twice. *)
Theorem contribution_ids_dense (env0 : Env) (txs : list (Env * Call)) :
  let s := run txs (constructor env0) in
  0 <= dataCount s /\
  (forall i, is_Some (encryptedData s !! i) <-> 1 <= i <= dataCount s) /\
  (forall i, is_Some (encryptedFlags s !! i) <-> 1 <= i <= dataCount s) /\
  submitted_ids (events s) = seqZ 1 (dataCount s) /\
  (forall (k : nat) (i : Z),
     submitted_ids (events s) !! k = Some i <->
     i = 1 + Z.of_nat k /\ Z.of_nat k < dataCount s) /\
  NoDup (submitted_ids (events s)).
Proof.
  intros s.
  destruct (ledger_ok_run txs (constructor env0) (ledger_ok_constructor env0))
    as (Hn & Hd & Hf & Hids).
  fold s in Hn, Hd, Hf, Hids.
  repeat (split; [done|]). rewrite Hids. split.
  - intros k i. apply lookup_seqZ.
  - apply NoDup_seqZ.
Qed.

(** ** The submission cooldown *)

(** The modifier reverts with [CooldownActive] exactly when the call
    comes before the deadline. *)
Lemma submissionCooldown_spec (env : Env) (submitter : address) (s : State) :
  submissionCooldown env submitter s = Revert CooldownActive s <->
  mapping_get 0 (lastSubmissionTime s) submitter + cooldownSeconds s <= MAX_UINT256 /\
  block_timestamp env <
    mapping_get 0 (lastSubmissionTime s) submitter + cooldownSeconds s.
Proof.
  split.
  - split_call; clean_tests; intros; simplify_eq; lia.
  - intros [Ho Hlt]. split_call; clean_tests; lia.
Qed.

Lemma submit_stamps (env : Env) (data : euint32) (flag : ebool) (s s1 : State) :
  submitEncryptedData env data flag s = Done tt s1 ->
  mapping_get 0 (lastSubmissionTime s1) (msg_sender env) = block_timestamp env /\
  mapping_get false (isProvider s1) (msg_sender env) = true /\
  paused s1 = false /\ batchOpen s1 = true /\ FHE_isInitialized = true /\
  cooldownSeconds s1 = cooldownSeconds s /\
  dataCount s1 = dataCount s + 1.
Proof.
  split_call; clean_tests. intros ?; simplify_eq/=.
  unfold mapping_get at 1. rewrite lookup_insert_eq. simpl.
  repeat split; done.
Qed.

(** *** C8 *)

(** C8. With a cooldown of 60 seconds: a submission accepted at time [t]
    stamps the submitter's timer with [t]; the same submitter calling
    again at a time before [t + 60] is answered [CooldownActive]; calling
    at [t + 60] or later with fresh handles, the submission is accepted
    and the timer is stamped anew.  (Times are [uint256]: [t + 60] is
    taken not to overflow, and neither is the next id.)  In general the
    cooldown guard answers [CooldownActive] exactly when
    [now < lastSubmissionTime[actor] + cooldownSeconds]. *)
Theorem cooldown_sixty_seconds (env : Env) (data : euint32) (flag : ebool)
    (s s1 : State) :
  cooldownSeconds s = 60 ->
  submitEncryptedData env data flag s = Done tt s1 ->
  block_timestamp env + 60 <= MAX_UINT256 ->
  mapping_get 0 (lastSubmissionTime s1) (msg_sender env) = block_timestamp env /\
  (forall (env' : Env) (a : address) (s' : State),
     submissionCooldown env' a s' = Revert CooldownActive s' <->
     mapping_get 0 (lastSubmissionTime s') a + cooldownSeconds s' <= MAX_UINT256 /\
     block_timestamp env' <
       mapping_get 0 (lastSubmissionTime s') a + cooldownSeconds s') /\
  forall (env' : Env) (data' : euint32) (flag' : ebool),
    msg_sender env' = msg_sender env ->
    (block_timestamp env' < block_timestamp env + 60 ->
       submitEncryptedData env' data' flag' s1 = Revert CooldownActive s1 /\
       transact (submitEncryptedData env' data' flag') s1 = (s1, Some CooldownActive)) /\
    (block_timestamp env + 60 <= block_timestamp env' ->
       euint32_isInitialized data' = false ->
       ebool_isInitialized flag' = false ->
       dataCount s1 < MAX_UINT256 ->
       exists s2,
         submitEncryptedData env' data' flag' s1 = Done tt s2 /\
         mapping_get 0 (lastSubmissionTime s2) (msg_sender env) = block_timestamp env').
Proof.
  intros Hcd Hsub Ht.
  destruct (submit_stamps env data flag s s1 Hsub)
    as (Hstamp & Hprov & Hpause & Hopen & Hfhe & Hcd1 & Hcount).
  split; [done|]. split; [apply submissionCooldown_spec|].
  intros env' data' flag' Hsame. rewrite Hcd in Hcd1.
  split.
  - intros Hearly.
    assert (submitEncryptedData env' data' flag' s1 = Revert CooldownActive s1) as Hrev.
    { rewrite <- Hsame in Hprov, Hstamp.
      split_call; clean_tests; try lia; congruence. }
    split; [done|]. unfold transact. by rewrite Hrev.
  - intros Hlate Hd Hf Hroom.
    rewrite <- Hsame in Hprov, Hstamp |- *.
    split_call; clean_tests; try lia; try congruence.
    eexists. split; [done|]. simpl.
    unfold mapping_get. by rewrite lookup_insert_eq.
Qed.

(** ** Words of a cleartext *)

Lemma byte_val_of_Z (z : Z) : byte_val (byte_of_Z z) = z mod 256.
Proof.
  unfold byte_val, byte_of_Z.
  pose proof (Z.mod_pos_bound z 256 ltac:(lia)) as Hb.
  destruct (Byte.of_N (Z.to_N (z mod 256))) as [b|] eqn:E.
  - apply Byte.to_of_N in E. rewrite E. lia.
  - apply Byte.of_N_None_iff in E. lia.
Qed.

Lemma length_be_bytes (n : nat) (v : Z) : length (be_bytes n v) = n.
Proof.
  revert v. induction n as [|n IH]; intros v; simpl; [done|].
  rewrite length_app, IH. simpl. lia.
Qed.

Lemma be_value_snoc (b : bytes) (x : Byte.byte) :
  be_value (b ++ [x]) = be_value b * 256 + byte_val x.
Proof. unfold be_value. by rewrite fold_left_app. Qed.

Lemma be_value_be_bytes (n : nat) (v : Z) :
  be_value (be_bytes n v) = v mod 256 ^ Z.of_nat n.
Proof.
  revert v. induction n as [|n IH]; intros v.
  - simpl. by rewrite Z.mod_1_r.
  - cbn [be_bytes]. rewrite be_value_snoc, IH, byte_val_of_Z.
    rewrite Nat2Z.inj_succ, Z.pow_succ_r by lia.
    rewrite (Z.rem_mul_r v 256 (256 ^ Z.of_nat n)) by lia. lia.
Qed.

Lemma word_0_app (a r : bytes) : length a = 32%nat -> word 0 (a ++ r) = be_value a.
Proof.
  intros Hl. unfold word. simpl. rewrite drop_0.
  by rewrite take_app_length' by done.
Qed.

Lemma word_S_app (n : nat) (a r : bytes) :
  length a = 32%nat -> word (S n) (a ++ r) = word n r.
Proof.
  intros Hl. unfold word.
  replace (32 * S n)%nat with (length a + 32 * n)%nat by lia.
  by rewrite drop_app_add'.
Qed.

Lemma word_0_encode (v : Z) (r : bytes) :
  0 <= v <= MAX_UINT256 -> word 0 (abi_encode_uint256 v ++ r) = v.
Proof.
  intros Hv. rewrite word_0_app by apply length_be_bytes.
  unfold abi_encode_uint256. rewrite be_value_be_bytes.
  apply Z.mod_small. unfold MAX_UINT256 in Hv.
  change (256 ^ Z.of_nat 32) with (2 ^ 256). lia.
Qed.

(** *** C4 *)

(** C4. On a ledger of three contributions that decrypt to 10, 20, 30
    with flags false, false, true, the fold yields handles that decrypt
    to sum 60, count 3, average 20, anyFlagSet true and thresholdExceeded
    false (threshold 100); the three packed handles decrypt to 20, 1
    (true) and 0 (false), and the oracle's cleartext for them is decoded
    by the callback to these very values.  The library is taken to be
    homomorphic. *)
Theorem fold_of_10_20_30
    (dec_u : euint32 -> Z) (dec_b : ebool -> bool) (dec32 : bytes32 -> Z)
    (HH : Homomorphic dec_u dec_b dec32) (s : State) :
  dataCount s = 3 ->
  dec_u (mapping_get euint32_zero (encryptedData s) 1) = 10 ->
  dec_u (mapping_get euint32_zero (encryptedData s) 2) = 20 ->
  dec_u (mapping_get euint32_zero (encryptedData s) 3) = 30 ->
  dec_b (mapping_get ebool_zero (encryptedFlags s) 1) = false ->
  dec_b (mapping_get ebool_zero (encryptedFlags s) 2) = false ->
  dec_b (mapping_get ebool_zero (encryptedFlags s) 3) = true ->
  let sum := (fold_ledger s).1.1 in
  let count := (fold_ledger s).1.2 in
  let anyFlagTrue := (fold_ledger s).2 in
  let average := fhe_div sum count in
  let isAverageHigh := fhe_ge average (asEuint32 100) in
  let cleartexts := oracle_cleartexts dec32 (pack_cts (fold_ledger s)) in
  dec_u sum = 60 /\ dec_u count = 3 /\ dec_u average = 20 /\
  dec_b anyFlagTrue = true /\ dec_b isAverageHigh = false /\
  pack_cts (fold_ledger s) =
    [euint32_toBytes32 average; ebool_toBytes32 anyFlagTrue;
     ebool_toBytes32 isAverageHigh] /\
  map dec32 (pack_cts (fold_ledger s)) = [20; 1; 0] /\
  well_formed_cleartexts cleartexts = true /\
  word 0 cleartexts = 20 /\ negb (word 1 cleartexts =? 0) = true /\
  word 2 cleartexts = 0.
Proof.
  intros Hc D1 D2 D3 F1 F2 F3.
  unfold fold_ledger. rewrite Hc. change (Z.to_nat 3) with 3%nat.
  cbn [fold_loop]. change (1 + 1) with 2. change (2 + 1) with 3.
  cbn [fst snd pack_cts].
  set (sum := fhe_add (fhe_add (fhe_add (asEuint32 0) _) _) _).
  set (count := fhe_add (fhe_add (fhe_add (asEuint32 0) _) _) _).
  set (anyf := fhe_or (fhe_or (fhe_or (asEbool false) _) _) _).
  assert (dec_u sum = 60) as Hsum.
  { unfold sum. rewrite !(dec_add _ _ _ HH), D1, D2, D3.
    by rewrite (dec_asEuint32 _ _ _ HH) by lia. }
  assert (dec_u count = 3) as Hcount.
  { unfold count. rewrite !(dec_add _ _ _ HH).
    by rewrite !(dec_asEuint32 _ _ _ HH) by lia. }
  assert (dec_u (fhe_div sum count) = 20) as Havg.
  { rewrite (dec_div _ _ _ HH) by lia. by rewrite Hsum, Hcount. }
  assert (dec_b anyf = true) as Hany.
  { unfold anyf. rewrite !(dec_or _ _ _ HH), F1, F2, F3.
    by rewrite (dec_asEbool _ _ _ HH). }
  assert (dec_b (fhe_ge (fhe_div sum count) (asEuint32 100)) = false) as Hhigh.
  { rewrite (dec_ge _ _ _ HH), Havg.
    by rewrite (dec_asEuint32 _ _ _ HH) by lia. }
  assert (map dec32 [euint32_toBytes32 (fhe_div sum count); ebool_toBytes32 anyf;
                     ebool_toBytes32 (fhe_ge (fhe_div sum count) (asEuint32 100))]
          = [20; 1; 0]) as Hdec.
  { simpl. rewrite (dec32_euint32 _ _ _ HH), !(dec32_ebool _ _ _ HH).
    by rewrite Havg, Hany, Hhigh. }
  repeat (split; [done|]).
  unfold oracle_cleartexts. rewrite Hdec. by vm_compute.
Qed.

(** *** C6 (as amended) *)

(** C6, amended. A callback that returns has decoded its cleartext as
    three consecutive 32-byte words, in the order the handles were packed
    by the request (average, anyFlagSet, thresholdExceeded): word 0 as a
    number into [results[0]], word 1 as a boolean (it must be 0 or 1)
    into [flags[0]], and word 2 as a number, not as a boolean, into
    [results[1]].  On the encoding of (average, anyFlagSet,
    thresholdExceeded) the event thus carries [average] and the
    threshold bit as 0 or 1 in [results], and [anyFlagSet] in [flags]. *)
Theorem callback_decoding (env : Env) (requestId : Z)
    (cleartexts proof : bytes) (s s' : State) :
  myCallback env requestId cleartexts proof s = Done tt s' ->
  ((96 <= length cleartexts)%nat /\ 0 <= word 1 cleartexts <= 1 /\
   events s' = events s ++
     [DecryptionCompleted requestId (batchId (context_of s requestId))
        [word 0 cleartexts; word 2 cleartexts]
        [negb (word 1 cleartexts =? 0)]]) /\
  (forall acc, pack_cts acc =
     [euint32_toBytes32 (fhe_div acc.1.1 acc.1.2);
      ebool_toBytes32 acc.2;
      ebool_toBytes32 (fhe_ge (fhe_div acc.1.1 acc.1.2) (asEuint32 100))]) /\
  (forall (average : Z) (anyFlagSet thresholdExceeded : bool) (rest : bytes),
     0 <= average <= MAX_UINT256 ->
     let packed := abi_encode_uint256 average ++ abi_encode_bool anyFlagSet ++
                   abi_encode_bool thresholdExceeded ++ rest in
     word 0 packed = average /\
     negb (word 1 packed =? 0) = anyFlagSet /\
     word 2 packed = (if thresholdExceeded then 1 else 0)).
Proof.
  intros Hdone.
  pose proof (myCallback_outcome env requestId cleartexts proof s) as Ho.
  rewrite Hdone in Ho. destruct Ho as (_ & _ & _ & _ & Hw & ->).
  unfold well_formed_cleartexts in Hw. clean_tests.
  pose proof (be_value_nonneg (take 32 (drop (32 * 1) cleartexts))) as Hpos.
  fold (word 1 cleartexts) in Hpos.
  split; [|split].
  - done.
  - by intros [[sum count] anyf].
  - intros average anyFlagSet thresholdExceeded rest Havg packed. unfold packed.
    split; [by apply word_0_encode|].
    rewrite !word_S_app by apply length_be_bytes.
    unfold abi_encode_bool. split.
    + rewrite (word_0_encode (if anyFlagSet then 1 else 0))
        by (unfold MAX_UINT256; destruct anyFlagSet; lia).
      by destruct anyFlagSet.
    + apply word_0_encode. unfold MAX_UINT256. destruct thresholdExceeded; lia.
Qed.

(** *** C3 *)

(** C3. A callback either passes every check and then finalizes in one
    go, or it reverts having written nothing: the state reached at the
    revert is the state the call started from, so [processed], the event
    log and all other storage are as before, whichever check failed. *)
Theorem myCallback_all_or_nothing (env : Env) (requestId : Z)
    (cleartexts proof : bytes) (s : State) :
  match myCallback env requestId cleartexts proof s with
  | Revert e s' =>
      s' = s /\
      transact (myCallback env requestId cleartexts proof) s = (s, Some e)
  | Done _ s' =>
      processed (context_of s requestId) = false /\
      _hashCiphertexts (pack_cts (fold_ledger s)) = stateHash (context_of s requestId) /\
      checkSignatures requestId cleartexts proof = true /\
      transact (myCallback env requestId cleartexts proof) s = (s', None) /\
      exists results flags, s' = finalized s requestId results flags
  end.
Proof.
  pose proof (myCallback_outcome env requestId cleartexts proof s) as Ho.
  unfold transact.
  destruct (myCallback env requestId cleartexts proof s); [|done].
  destruct Ho as (? & ? & ? & ? & ? & ?). eauto 10.
Qed.

(** * Further properties of the contract *)

(** ** Access control *)

(** X1. A caller who is not a provider cannot submit: the call reverts
    with [NotProvider] whatever the pause flag, the batch, the cooldown
    and the handles are, and writes nothing. *)
Theorem non_provider_rejected (env : Env) (data : euint32) (flag : ebool) (s : State) :
  mapping_get false (isProvider s) (msg_sender env) = false ->
  submitEncryptedData env data flag s = Revert NotProvider s /\
  transact (submitEncryptedData env data flag) s = (s, Some NotProvider).
Proof.
  intros Hnp.
  assert (submitEncryptedData env data flag s = Revert NotProvider s) as Hr.
  { cbv [submitEncryptedData onlyProvider bind get revert]. by rewrite Hnp. }
  split; [done|]. unfold transact. by rewrite Hr.
Qed.

(** X2. Each of the eight administrative calls, made by anyone but the
    owner, reverts with [NotOwner] before anything else is looked at,
    and writes nothing. *)
Theorem admin_calls_owner_only (env : Env) (c : Call) (s : State) :
  is_admin_call c = true ->
  msg_sender env <> owner s ->
  dispatch env c s = Revert NotOwner s /\
  transact (dispatch env c) s = (s, Some NotOwner).
Proof.
  intros Hc Hne. apply Z.eqb_neq in Hne.
  assert (dispatch env c s = Revert NotOwner s) as Hr.
  { destruct c; try done; simpl.
    all: cbv [transferOwnership addProvider removeProvider setCooldown pause
              unpause openBatch closeBatch onlyOwner bind get revert].
    all: by rewrite Hne. }
  split; [done|]. unfold transact. by rewrite Hr.
Qed.

(** The guards of a submission, all passed. *)
Lemma submit_returns (env : Env) (data : euint32) (flag : ebool) (s : State) :
  mapping_get false (isProvider s) (msg_sender env) = true ->
  paused s = false ->
  submission_cooldown_over env s ->
  batchOpen s = true ->
  euint32_isInitialized data = false ->
  ebool_isInitialized flag = false ->
  FHE_isInitialized = true ->
  dataCount s + 1 <= MAX_UINT256 ->
  snd (transact (submitEncryptedData env data flag) s) = None.
Proof.
  unfold submission_cooldown_over.
  intros Hp Hq (Ho & Hd) Hb Hi Hj Hf Hn.
  split_call; clean_tests; try lia; congruence.
Qed.

(** X3. A submission is accepted exactly when the caller is a provider,
    the contract is not paused, the caller's submission cooldown is over,
    a batch is open, both handles are uninitialised, the library is
    initialised and the next id fits in [uint256]. *)
Theorem submit_accepted_iff (env : Env) (data : euint32) (flag : ebool) (s : State) :
  snd (transact (submitEncryptedData env data flag) s) = None <->
  mapping_get false (isProvider s) (msg_sender env) = true /\
  paused s = false /\
  submission_cooldown_over env s /\
  batchOpen s = true /\
  euint32_isInitialized data = false /\
  ebool_isInitialized flag = false /\
  FHE_isInitialized = true /\
  dataCount s + 1 <= MAX_UINT256.
Proof.
  split.
  - unfold submission_cooldown_over.
    split_call; clean_tests; intros _; repeat split; try done; lia.
  - intros (Hp & Hq & Hc & Hb & Hi & Hj & Hf & Hn). by apply submit_returns.
Qed.

(** X4. The provider registry.  For the owner, [addProvider] and
    [removeProvider] always return (they are not pausable); afterwards
    the address is, respectively is not, a provider, and no other address
    changes status.  Both are idempotent: adding a provider, or removing
    a non-provider, changes nothing and logs nothing.  A removed address,
    the owner included, can no longer submit. *)
Theorem provider_registry (env : Env) (p : address) (s : State) :
  msg_sender env = owner s ->
  let sa := step s (env, CallAddProvider p) in
  let sr := step s (env, CallRemoveProvider p) in
  snd (transact (addProvider env p) s) = None /\
  snd (transact (removeProvider env p) s) = None /\
  mapping_get false (isProvider sa) p = true /\
  mapping_get false (isProvider sr) p = false /\
  (forall q, q <> p ->
     mapping_get false (isProvider sa) q = mapping_get false (isProvider s) q /\
     mapping_get false (isProvider sr) q = mapping_get false (isProvider s) q) /\
  (mapping_get false (isProvider s) p = true -> sa = s) /\
  (mapping_get false (isProvider s) p = false ->
     sr = s /\ events sa = events s ++ [ProviderAdded p]) /\
  (forall env' data flag, msg_sender env' = p ->
     submitEncryptedData env' data flag sr = Revert NotProvider sr).
Proof.
  intros Ho sa sr.
  assert (mapping_get false (isProvider sr) p = false) as Hsr.
  { unfold sr. split_call; clean_tests; try congruence.
    unfold mapping_get. by rewrite lookup_insert_eq. }
  repeat split.
  - split_call; clean_tests; congruence.
  - split_call; clean_tests; congruence.
  - unfold sa. split_call; clean_tests; try congruence.
    unfold mapping_get. by rewrite lookup_insert_eq.
  - done.
  - unfold sa. split_call. unfold mapping_get. by rewrite lookup_insert_ne.
  - unfold sr. split_call. unfold mapping_get. by rewrite lookup_insert_ne.
  - intros Hp. unfold sa. split_call; clean_tests; congruence.
  - unfold sr. split_call; clean_tests; congruence.
  - unfold sa. split_call; clean_tests; congruence.
  - intros env' data flag Hs.
    cbv [submitEncryptedData onlyProvider bind get revert]. by rewrite Hs, Hsr.
Qed.

(** X5. Ownership transfer.  For the owner, [transferOwnership] always
    returns, for any new owner (there is no zero-address test); it moves
    the owner role and nothing else: the provider set stays as it was, so
    the new owner is a provider only if it was one before.  When the new
    owner is another address, the former owner has lost every
    administrative call. *)
Theorem ownership_transfer (env : Env) (newOwner : address) (s : State) :
  msg_sender env = owner s ->
  transferOwnership env newOwner s =
    Done tt (set_events (events s ++ [OwnershipTransferred (owner s) newOwner])
               (set_owner newOwner s)) /\
  (let s1 := step s (env, CallTransferOwnership newOwner) in
   owner s1 = newOwner /\
   isProvider s1 = isProvider s /\
   (newOwner <> owner s ->
    forall env' c, msg_sender env' = owner s -> is_admin_call c = true ->
      dispatch env' c s1 = Revert NotOwner s1)).
Proof.
  intros Ho. apply Z.eqb_eq in Ho as Hb.
  assert (transferOwnership env newOwner s =
          Done tt (set_events (events s ++ [OwnershipTransferred (owner s) newOwner])
                     (set_owner newOwner s))) as Hd.
  { cbv [transferOwnership onlyOwner emit modify bind get ret revert]. by rewrite Hb. }
  split; [done|]. intros s1.
  assert (s1 = set_events (events s ++ [OwnershipTransferred (owner s) newOwner])
                 (set_owner newOwner s)) as ->.
  { unfold s1, step, transact, dispatch; simpl. by rewrite Hd. }
  split; [done|]. split; [done|].
  intros Hne env' c Hs Hc.
  assert ((msg_sender env' =? newOwner) = false) as Hnb by (apply Z.eqb_neq; congruence).
  destruct c; try done; simpl.
  all: cbv [transferOwnership addProvider removeProvider setCooldown pause
            unpause openBatch closeBatch onlyOwner bind get revert]; simpl.
  all: by rewrite Hnb.
Qed.

(** X6. While the contract is paused, none of the pausable calls
    (pause, openBatch, closeBatch, submitEncryptedData,
    requestAggregateDecryption) returns: each reverts with [Paused], or
    with [NotOwner] / [NotProvider] when its access modifier, which comes
    first, rejects the caller; nothing is written.  [unpause], by the
    owner, returns whatever the flag was, and leaves the contract
    unpaused. *)
Theorem paused_blocks (env : Env) (c : Call) (s : State) :
  (paused s = true -> is_pausable_call c = true ->
     dispatch env c s =
       Revert (if is_admin_call c
               then (if msg_sender env =? owner s then Paused else NotOwner)
               else match c with
                    | CallSubmit _ _ =>
                        if mapping_get false (isProvider s) (msg_sender env)
                        then Paused else NotProvider
                    | _ => Paused
                    end) s) /\
  (msg_sender env = owner s ->
     unpause env s =
       Done tt (set_events (events s ++ [ContractUnpaused]) (set_paused false s))).
Proof.
  split.
  - intros Hp Hc. destruct c; try done; simpl.
    all: split_call; clean_tests; congruence.
  - intros Ho. split_call; clean_tests; congruence.
Qed.

(** X7. The callback is open to anyone and looks only at the ledger and
    at the stored contexts: its outcome does not depend on the caller,
    on the time, nor on any other storage (owner, providers, timers,
    cooldown, pause flag, batch id and batch flag).  In particular a
    callback goes through while the contract is paused. *)
Theorem callback_reads_ledger_and_contexts (env env' : Env) (requestId : Z)
    (cleartexts proof : bytes) (s s' : State) :
  decryptionContexts s' = decryptionContexts s ->
  same_ledger s s' ->
  snd (transact (myCallback env' requestId cleartexts proof) s') =
  snd (transact (myCallback env requestId cleartexts proof) s) /\
  (forall s1, myCallback env requestId cleartexts proof s = Done tt s1 ->
     exists results flags,
       s1 = finalized s requestId results flags /\
       myCallback env' requestId cleartexts proof s' =
         Done tt (finalized s' requestId results flags)).
Proof.
  intros Hctx (Hn & Hd & Hf).
  assert (context_of s' requestId = context_of s requestId) as Hc
    by (by apply context_of_same).
  assert (fold_ledger s' = fold_ledger s) as Hfold
    by (unfold fold_ledger; by rewrite Hn, Hd, Hf).
  split.
  - cbv [myCallback rebuild_cts bind get ret revert transact emit modify
         abi_decode_bool abi_decode_uint256 slice].
    rewrite Hc. destruct (processed (context_of s requestId)); simpl; [done|].
    rewrite Hn. destruct (dataCount s =? MAX_UINT256); simpl; [done|].
    rewrite Hfold.
    destruct (bool_decide (_hashCiphertexts (pack_cts (fold_ledger s)) =
                           stateHash (context_of s requestId))); simpl; [|done].
    destruct (checkSignatures requestId cleartexts proof); simpl; [|done].
    repeat (case_match; simplify_eq/=; try done).
    all: clean_tests; try lia; congruence.
  - intros s1 Hdone.
    pose proof (myCallback_outcome env requestId cleartexts proof s) as Ho.
    rewrite Hdone in Ho. destruct Ho as (Hp & Hm & Hh & Hs & Hw & ->).
    do 2 eexists. split; [done|].
    apply myCallback_ok; rewrite ?Hc, ?Hfold, ?Hn; done.
Qed.

(** ** Batches, ledger and log over a history *)

(** One transaction moves the batch id only when it is an [openBatch]
    on a batch that is already open, and then by one. *)
Lemma batch_id_step (s : State) (tx : Env * Call) :
  currentBatchId (step s tx) = currentBatchId s \/
  (snd tx = CallOpenBatch /\ batchOpen s = true /\
   currentBatchId (step s tx) = currentBatchId s + 1).
Proof.
  destruct tx as [env c]. destruct c.
  11: {
    unfold step, transact, dispatch; simpl.
    pose proof (myCallback_outcome env requestId cleartexts proof s) as Ho.
    destruct (myCallback env requestId cleartexts proof s); [|by left].
    destruct Ho as (_ & _ & _ & _ & _ & ->). by left. }
  all: split_call; auto.
Qed.

(** X8. The batch id.  It never decreases over a history, and one
    transaction changes it only when [openBatch] is called on a batch
    that is already open (then it grows by one).  So closing a batch and
    opening again continues under the same id; and [closeBatch] on a
    closed batch reverts with [BatchClosed]. *)
Theorem batch_id_lifecycle (txs : list (Env * Call)) (s : State) :
  currentBatchId s <= currentBatchId (run txs s) /\
  (forall tx,
     currentBatchId (step s tx) = currentBatchId s \/
     (snd tx = CallOpenBatch /\ batchOpen s = true /\
      currentBatchId (step s tx) = currentBatchId s + 1)) /\
  (forall env, msg_sender env = owner s -> paused s = false ->
     (batchOpen s = false -> closeBatch env s = Revert BatchClosed s) /\
     (batchOpen s = true ->
        let s2 := run [(env, CallCloseBatch); (env, CallOpenBatch)] s in
        batchOpen s2 = true /\ currentBatchId s2 = currentBatchId s /\
        events s2 = events s ++ [BatchClosedEv (currentBatchId s);
                                 BatchOpened (currentBatchId s)])).
Proof.
  split; [|split].
  - revert s. induction txs as [|tx txs IH]; intros s; simpl; [lia|].
    specialize (IH (step s tx)). unfold run in *.
    destruct (batch_id_step s tx) as [E|(_ & _ & E)]; lia.
  - apply batch_id_step.
  - intros env Ho Hp. split.
    + intros Hb. split_call; clean_tests; congruence.
    + intros Hb. unfold run. simpl.
      split_call; clean_tests; try congruence.
      by rewrite <- app_assoc.
Qed.

Lemma ledger_step (s : State) (tx : Env * Call) :
  same_ledger s (step s tx) \/
  (dataCount (step s tx) = dataCount s + 1 /\
   exists data flag,
     encryptedData (step s tx) = <[dataCount s + 1 := data]> (encryptedData s) /\
     encryptedFlags (step s tx) = <[dataCount s + 1 := flag]> (encryptedFlags s)).
Proof.
  destruct tx as [env c]. destruct c.
  11: {
    unfold step, transact, dispatch; simpl.
    pose proof (myCallback_outcome env requestId cleartexts proof s) as Ho.
    destruct (myCallback env requestId cleartexts proof s); [|by left].
    destruct Ho as (_ & _ & _ & _ & _ & ->). by left. }
  all: split_call; try (by left).
  right. split; [done|]. by do 2 eexists.
Qed.

(** X9. The ledger is append-only.  Over any history the number of
    contributions never decreases, and what is stored under an id that
    was already given ([i <= dataCount]) is never overwritten nor
    deleted. *)
Theorem ledger_append_only (txs : list (Env * Call)) (s : State) (i : Z) :
  i <= dataCount s ->
  dataCount s <= dataCount (run txs s) /\
  encryptedData (run txs s) !! i = encryptedData s !! i /\
  encryptedFlags (run txs s) !! i = encryptedFlags s !! i.
Proof.
  revert s. induction txs as [|tx txs IH]; intros s Hi; simpl; [by split; [lia|]|].
  destruct (ledger_step s tx) as [(Hn & Hd & Hf)|(Hn & data & flag & Hd & Hf)].
  - destruct (IH (step s tx)) as (IH1 & IH2 & IH3); [lia|].
    unfold run in *. rewrite IH2, IH3, Hd, Hf. split; [lia|done].
  - destruct (IH (step s tx)) as (IH1 & IH2 & IH3); [lia|].
    unfold run in *. rewrite IH2, IH3, Hd, Hf.
    rewrite !lookup_insert_ne by lia. split; [lia|done].
Qed.

Lemma events_step (s : State) (tx : Env * Call) :
  events (step s tx) = events s \/
  exists ev, events (step s tx) = events s ++ [ev] /\
             snd (transact (dispatch (fst tx) (snd tx)) s) = None.
Proof.
  destruct tx as [env c]. destruct c.
  11: {
    unfold step, transact, dispatch; simpl.
    pose proof (myCallback_outcome env requestId cleartexts proof s) as Ho.
    destruct (myCallback env requestId cleartexts proof s); [|by left].
    destruct Ho as (_ & _ & _ & _ & _ & ->). right. by eexists. }
  all: split_call; try (by left); right; by eexists.
Qed.

(** X10. The event log is append-only.  Over any history the old log is
    a prefix of the new one; one transaction appends at most one event,
    and a transaction that reverts appends none. *)
Theorem log_append_only (txs : list (Env * Call)) (s : State) :
  events s `prefix_of` events (run txs s) /\
  (length (events (run txs s)) <= length (events s) + length txs)%nat /\
  (forall tx, snd (transact (dispatch (fst tx) (snd tx)) s) <> None ->
     events (step s tx) = events s).
Proof.
  split; [|split].
  - revert s. induction txs as [|tx txs IH]; intros s; simpl; [done|].
    etrans; [|apply IH].
    destruct (events_step s tx) as [->|(ev & -> & _)]; [done|].
    by apply prefix_app_r.
  - revert s. induction txs as [|tx txs IH]; intros s; simpl; [lia|].
    specialize (IH (step s tx)). unfold run in *.
    destruct (events_step s tx) as [E|(ev & E & _)]; rewrite E in IH.
    + lia.
    + rewrite length_app in IH. simpl in IH. lia.
  - intros tx Hrev. destruct (events_step s tx) as [E|(ev & _ & E)]; [done|].
    congruence.
Qed.

(** ** Request and callback together *)

Lemma same_ledger_run (txs : list (Env * Call)) (s : State) :
  dataCount (run txs s) = dataCount s -> same_ledger s (run txs s).
Proof.
  revert s. induction txs as [|tx txs IH]; intros s Hn; simpl in *; [done|].
  pose proof (dataCount_run txs (step s tx)) as Hmono. unfold run in *.
  destruct (ledger_step s tx) as [(Hn1 & Hd1 & Hf1)|(Hn1 & _)]; [|lia].
  destruct (IH (step s tx)) as (Hn2 & Hd2 & Hf2); [lia|].
  split; [lia|]. by rewrite Hd2, Hf2.
Qed.

(** The batch id stored with a request changes only when the oracle
    gives the id to a new request. *)
Lemma batchId_step (requestId : Z) (s : State) (tx : Env * Call) :
  match snd tx with CallRequest id => id <> requestId | _ => True end ->
  batchId (context_of (step s tx) requestId) = batchId (context_of s requestId).
Proof.
  destruct tx as [env c]. intros Hid. destruct c; simpl in Hid.
  11: {
    unfold step, transact, dispatch; simpl.
    pose proof (myCallback_outcome env requestId0 cleartexts proof s) as Ho.
    destruct (myCallback env requestId0 cleartexts proof s); [|done].
    destruct Ho as (_ & _ & _ & _ & _ & ->).
    destruct (decide (requestId0 = requestId)) as [->|Hne].
    - by erewrite context_of_insert by reflexivity.
    - f_equal. by eapply context_of_insert_ne. }
  all: split_call; clean_tests.
  all: try (f_equal; by apply context_of_same).
  f_equal. by eapply context_of_insert_ne.
Qed.

Lemma batchId_run (requestId : Z) (txs : list (Env * Call)) (s : State) :
  id_not_reissued requestId txs ->
  batchId (context_of (run txs s) requestId) = batchId (context_of s requestId).
Proof.
  intros Hids. revert s.
  induction Hids as [|tx txs Htx _ IH]; intros s; [done|].
  simpl. rewrite IH. by apply batchId_step.
Qed.

(** X11. The happy path.  After a request has returned, and after any
    history in which no contribution was accepted (the ledger has the
    size it had) and the oracle reissued no id, a callback for the still
    pending request with an accepted proof and a well-formed cleartext
    finalizes - whatever else happened meanwhile: pauses, changes of
    owner or providers, batches closed, opened or advanced.  The event
    reports the batch id of the time of the request. *)
Theorem request_then_callback (env0 : Env) (requestId : Z) (s0 s1 : State)
    (txs : list (Env * Call)) (envC : Env) (cleartexts proof : bytes) :
  requestAggregateDecryption env0 requestId s0 = Done tt s1 ->
  id_not_reissued requestId txs ->
  let s := run txs s1 in
  dataCount s = dataCount s0 ->
  processed (context_of s requestId) = false ->
  checkSignatures requestId cleartexts proof = true ->
  well_formed_cleartexts cleartexts = true ->
  myCallback envC requestId cleartexts proof s =
    Done tt (finalized s requestId [word 0 cleartexts; word 2 cleartexts]
                                   [negb (word 1 cleartexts =? 0)]) /\
  batchId (context_of s requestId) = currentBatchId s0.
Proof.
  intros Hreq Hids s Hn Hp Hs Hw.
  pose proof (request_outcome env0 requestId s0) as Ho. rewrite Hreq in Ho.
  destruct Ho as (_ & _ & Hmax & _ & Hcount & Hctx).
  assert (fold_ledger s = fold_ledger s0) as Hfold.
  { destruct (same_ledger_run txs s1) as (_ & Hd & Hf); [fold s; lia|].
    fold s in Hd, Hf.
    assert (same_ledger s0 s1) as (_ & Hd1 & Hf1).
    { destruct (ledger_step s0 (env0, CallRequest requestId)) as [H|(H & _)].
      - unfold step, transact, dispatch in H; simpl in H. by rewrite Hreq in H.
      - unfold step, transact, dispatch in H; simpl in H. rewrite Hreq in H.
        simpl in H. lia. }
    unfold fold_ledger. by rewrite Hn, Hd, Hf, Hd1, Hf1. }
  split.
  - apply myCallback_ok; try done; [lia|].
    unfold s. rewrite stateHash_run by done. rewrite Hctx. simpl.
    fold s. by rewrite Hfold.
  - unfold s. rewrite batchId_run by done. by rewrite Hctx.
Qed.

Lemma word_app_prefix (n : nat) (b extra : bytes) :
  (32 * n + 32 <= length b)%nat -> word n (b ++ extra) = word n b.
Proof.
  intros Hl. unfold word.
  rewrite drop_app_le by lia.
  rewrite take_app_le; [done|]. rewrite length_drop. lia.
Qed.

(** X12. Decoding.  When the latch, the commitment and the proof let a
    callback through, it still reverts, with nothing written, if the
    cleartext has fewer than 96 bytes or if its second word is neither 0
    nor 1.  Bytes after the 96th are never read: a well-formed cleartext
    followed by anything is decoded as the cleartext itself. *)
Theorem callback_decode_edges (env : Env) (requestId : Z)
    (cleartexts proof : bytes) (s : State) :
  processed (context_of s requestId) = false ->
  dataCount s <> MAX_UINT256 ->
  _hashCiphertexts (pack_cts (fold_ledger s)) = stateHash (context_of s requestId) ->
  checkSignatures requestId cleartexts proof = true ->
  (well_formed_cleartexts cleartexts = false ->
     myCallback env requestId cleartexts proof s = Revert DecodeRevert s) /\
  (well_formed_cleartexts cleartexts = true ->
     forall extra proof',
       checkSignatures requestId (cleartexts ++ extra) proof' = true ->
       myCallback env requestId (cleartexts ++ extra) proof' s =
         Done tt (finalized s requestId [word 0 cleartexts; word 2 cleartexts]
                                        [negb (word 1 cleartexts =? 0)])).
Proof.
  intros Hp Hm Hh Hs. split.
  - intros Hw.
    pose proof (myCallback_outcome env requestId cleartexts proof s) as Ho.
    destruct (myCallback env requestId cleartexts proof s) as [[] s'|e s'] eqn:E.
    { destruct Ho as (_ & _ & _ & _ & Hw' & _). congruence. }
    subst s'. f_equal. revert E. clear Hw.
    split_call; clean_tests; congruence.
  - intros Hw extra proof' Hs'.
    unfold well_formed_cleartexts in Hw. clean_tests.
    rewrite <- (word_app_prefix 0 cleartexts extra) by (simpl; lia).
    rewrite <- (word_app_prefix 1 cleartexts extra) by (simpl; lia).
    rewrite <- (word_app_prefix 2 cleartexts extra) by (simpl; lia).
    apply myCallback_ok; try done.
    unfold well_formed_cleartexts. apply andb_true_iff. split.
    + apply Nat.leb_le. rewrite length_app. lia.
    + apply Z.leb_le. rewrite word_app_prefix by (simpl; lia). lia.
Qed.

(** ** Timers *)

(** The state a request that returns leaves. *)
Lemma request_post (env : Env) (oracleId : Z) (s s1 : State) :
  requestAggregateDecryption env oracleId s = Done tt s1 ->
  s1 = set_events
         (events s ++ [DecryptionRequested oracleId (currentBatchId s)
                         (_hashCiphertexts (pack_cts (fold_ledger s)))])
         (set_lastDecryptionRequestTime
            (<[msg_sender env := block_timestamp env]> (lastDecryptionRequestTime s))
            (set_decryptionContexts
               (<[oracleId := {| batchId := currentBatchId s;
                                 stateHash := _hashCiphertexts (pack_cts (fold_ledger s));
                                 processed := false |}]>
                  (decryptionContexts s)) s)).
Proof. split_call. by intros [= <-]. Qed.

(** X13. The request cooldown.  A request that returns at time [t]
    stamps the caller's request timer with [t] and leaves everything
    else of the rate limiter alone: the submission timers, and the
    request timers of other callers.  The same caller asking again before
    [t + cooldownSeconds] is answered [CooldownActive]. *)
Theorem request_cooldown (env : Env) (oracleId : Z) (s s1 : State) :
  requestAggregateDecryption env oracleId s = Done tt s1 ->
  mapping_get 0 (lastDecryptionRequestTime s1) (msg_sender env) = block_timestamp env /\
  lastSubmissionTime s1 = lastSubmissionTime s /\
  (forall b, b <> msg_sender env ->
     mapping_get 0 (lastDecryptionRequestTime s1) b =
     mapping_get 0 (lastDecryptionRequestTime s) b) /\
  (forall env' oracleId',
     msg_sender env' = msg_sender env ->
     block_timestamp env + cooldownSeconds s <= MAX_UINT256 ->
     block_timestamp env' < block_timestamp env + cooldownSeconds s ->
     requestAggregateDecryption env' oracleId' s1 = Revert CooldownActive s1).
Proof.
  intros Hreq.
  pose proof (request_outcome env oracleId s) as Ho. rewrite Hreq in Ho.
  destruct Ho as (Hp & _).
  apply request_post in Hreq. subst s1.
  simpl. repeat split.
  - unfold mapping_get. by rewrite lookup_insert_eq.
  - intros b Hb. unfold mapping_get. by rewrite lookup_insert_ne.
  - intros env' oracleId' Hsame Hfit Hearly.
    cbv [requestAggregateDecryption whenNotPaused decryptionRequestCooldown
         checked_add bind get ret revert]. simpl.
    rewrite Hp. simpl. rewrite Hsame. unfold mapping_get.
    rewrite lookup_insert_eq. simpl.
    apply Z.leb_le in Hfit. rewrite Hfit.
    apply Z.ltb_lt in Hearly. by rewrite Hearly.
Qed.

(** X14. [setCooldown].  The owner can set any cooldown, at any time,
    paused or not; it applies at once to both timers.  The value has no
    bound: once [last + cooldownSeconds] exceeds [2^256 - 1] for an
    actor, the cooldown test of that actor overflows, and the
    submissions (of a provider) and requests of that actor revert with
    [Panic] instead of [CooldownActive]. *)
Theorem cooldown_setting (env : Env) (v : Z) (s : State) :
  (msg_sender env = owner s ->
     setCooldown env v s =
       Done tt (set_events (events s ++ [CooldownSet (cooldownSeconds s) v])
                  (set_cooldownSeconds v s))) /\
  (forall data flag,
     mapping_get false (isProvider s) (msg_sender env) = true ->
     paused s = false ->
     MAX_UINT256 <
       mapping_get 0 (lastSubmissionTime s) (msg_sender env) + cooldownSeconds s ->
     submitEncryptedData env data flag s = Revert Panic s) /\
  (forall oracleId,
     paused s = false ->
     MAX_UINT256 <
       mapping_get 0 (lastDecryptionRequestTime s) (msg_sender env) + cooldownSeconds s ->
     requestAggregateDecryption env oracleId s = Revert Panic s).
Proof.
  repeat split.
  - intros Ho. split_call; clean_tests; congruence.
  - intros data flag Hp Hq Hover. split_call; clean_tests; try lia; congruence.
  - intros oracleId Hq Hover. split_call; clean_tests; try lia; congruence.
Qed.

(** ** Deployment *)

(** X15. A freshly deployed contract.  The deployer is the owner and the
    only provider, the cooldown is 60 seconds, batch 1 exists but is
    closed and the ledger is empty.  So the first submission of the owner
    reverts with [BatchClosed] until [openBatch] is called, which opens
    batch 1 (the id does not move); a request reverts with
    [InvalidBatch]; and, as the timers start at 0, both revert with
    [CooldownActive] at a time below 60. *)
Theorem fresh_deployment (env0 env : Env) (data : euint32) (flag : ebool) (oracleId : Z) :
  let s := constructor env0 in
  owner s = msg_sender env0 /\
  (forall a, mapping_get false (isProvider s) a = bool_decide (a = msg_sender env0)) /\
  (msg_sender env = msg_sender env0 ->
     (60 <= block_timestamp env ->
        submitEncryptedData env data flag s = Revert BatchClosed s) /\
     (block_timestamp env < 60 ->
        submitEncryptedData env data flag s = Revert CooldownActive s) /\
     openBatch env s =
       Done tt (set_events (events s ++ [BatchOpened 1]) (set_batchOpen true s))) /\
  (60 <= block_timestamp env ->
     requestAggregateDecryption env oracleId s = Revert InvalidBatch s) /\
  (block_timestamp env < 60 ->
     requestAggregateDecryption env oracleId s = Revert CooldownActive s).
Proof.
  intros s. split; [done|]. split; [|split; [|split]].
  - intros a. unfold s, mapping_get; simpl.
    destruct (decide (a = msg_sender env0)) as [->|Hne].
    + by rewrite lookup_singleton_eq, bool_decide_eq_true_2.
    + by rewrite lookup_singleton_ne, bool_decide_eq_false_2.
  - intros Hs.
    assert (mapping_get false (isProvider s) (msg_sender env) = true) as Hp.
    { unfold s, mapping_get; simpl. by rewrite Hs, lookup_singleton_eq. }
    apply Z.eqb_eq in Hs as Hb.
    repeat split.
    + intros Ht. apply Z.ltb_ge in Ht.
      cbv [submitEncryptedData onlyProvider whenNotPaused submissionCooldown
           checked_add require bind get ret revert].
      rewrite Hp. simpl. unfold mapping_get. rewrite lookup_empty. simpl.
      change (0 + 60) with 60. by rewrite Ht.
    + intros Ht. apply Z.ltb_lt in Ht.
      cbv [submitEncryptedData onlyProvider whenNotPaused submissionCooldown
           checked_add require bind get ret revert].
      rewrite Hp. simpl. unfold mapping_get. rewrite lookup_empty. simpl.
      change (0 + 60) with 60. by rewrite Ht.
    + cbv [openBatch onlyOwner whenNotPaused emit modify bind get ret revert].
      simpl. by rewrite Hb.
  - intros Ht. apply Z.ltb_ge in Ht.
    cbv [requestAggregateDecryption whenNotPaused decryptionRequestCooldown
         checked_add bind get ret revert]. simpl.
    unfold mapping_get. rewrite lookup_empty. simpl.
    change (0 + 60) with 60. by rewrite Ht.
  - intros Ht. apply Z.ltb_lt in Ht.
    cbv [requestAggregateDecryption whenNotPaused decryptionRequestCooldown
         checked_add bind get ret revert]. simpl.
    unfold mapping_get. rewrite lookup_empty. simpl.
    change (0 + 60) with 60. by rewrite Ht.
Qed.

(** The state an accepted submission leaves. *)
Lemma submit_post (env : Env) (data : euint32) (flag : ebool) (s s1 : State) :
  submitEncryptedData env data flag s = Done tt s1 ->
  s1 = set_events
         (events s ++ [DataSubmitted (msg_sender env) (currentBatchId s) (dataCount s + 1)])
         (set_lastSubmissionTime
            (<[msg_sender env := block_timestamp env]> (lastSubmissionTime s))
            (set_encryptedFlags (<[dataCount s + 1 := flag]> (encryptedFlags s))
               (set_encryptedData (<[dataCount s + 1 := data]> (encryptedData s))
                  (set_dataCount (dataCount s + 1) s)))).
Proof. split_call. by intros [= <-]. Qed.

(** X16. The submission cooldown is per provider.  An accepted
    submission stamps the timer of its sender only: the timers of the
    other providers and all request timers stay as they were, and so do
    the provider set, the pause flag, the batch and the stored contexts.
    Hence another provider whose own cooldown is over can submit right
    away, even at the same time. *)
Theorem submission_cooldown_per_provider (env env' : Env)
    (data data' : euint32) (flag flag' : ebool) (s s1 : State) :
  submitEncryptedData env data flag s = Done tt s1 ->
  (forall b, b <> msg_sender env ->
     mapping_get 0 (lastSubmissionTime s1) b = mapping_get 0 (lastSubmissionTime s) b) /\
  lastDecryptionRequestTime s1 = lastDecryptionRequestTime s /\
  decryptionContexts s1 = decryptionContexts s /\
  currentBatchId s1 = currentBatchId s /\
  (msg_sender env' <> msg_sender env ->
   mapping_get false (isProvider s) (msg_sender env') = true ->
   submission_cooldown_over env' s ->
   euint32_isInitialized data' = false ->
   ebool_isInitialized flag' = false ->
   dataCount s + 2 <= MAX_UINT256 ->
   snd (transact (submitEncryptedData env' data' flag') s1) = None).
Proof.
  intros Hsub.
  destruct (submit_stamps env data flag s s1 Hsub)
    as (_ & _ & Hpause & Hopen & Hfhe & Hcd & Hcount).
  apply submit_post in Hsub. subst s1. simpl in *.
  split; [|split; [done|split; [done|split; [done|]]]].
  - intros b Hb. unfold mapping_get. by rewrite lookup_insert_ne.
  - intros Hne Hp (Hfit & Hover) Hd Hf Hroom.
    apply submit_returns; simpl; try done; [|lia].
    unfold submission_cooldown_over, mapping_get in *; simpl.
    by rewrite lookup_insert_ne by done.
Qed.

(** ** Completions against requests *)

Lemma requests_of_snoc (requestId : Z) (evs : list Event) (ev : Event) :
  requests_of requestId (evs ++ [ev]) =
  requests_of requestId evs ++ requests_of requestId [ev].
Proof. unfold requests_of. apply List.filter_app. Qed.

(** The calls other than request and callback leave the contexts alone
    and log neither a request nor a completion. *)
Lemma other_calls_frame (s : State) (env : Env) (c : Call) :
  match c with CallRequest _ | CallCallback _ _ _ => False | _ => True end ->
  decryptionContexts (step s (env, c)) = decryptionContexts s /\
  (events (step s (env, c)) = events s \/
   exists ev, events (step s (env, c)) = events s ++ [ev] /\
              forall r, completions_of r [ev] = [] /\ requests_of r [ev] = []).
Proof.
  intros Hc. destruct c; try done.
  all: split_call; split; try done; try (by left); right; by eexists.
Qed.

Section Accounting.
Hypothesis keccak_nonzero : forall cts addr, keccak256_encode cts addr <> bytes32_zero.

Lemma accounting_step (s : State) (tx : Env * Call) :
  (forall r, (length (completions_of r (events s)) + (if pending s r then 1 else 0)
              <= length (requests_of r (events s)))%nat) ->
  forall r, (length (completions_of r (events (step s tx)))
             + (if pending (step s tx) r then 1 else 0)
             <= length (requests_of r (events (step s tx))))%nat.
Proof.
  destruct tx as [env c]. intros HI r. specialize (HI r). destruct c.
  11: {
    unfold step, transact, dispatch; simpl.
    pose proof (myCallback_outcome env requestId cleartexts proof s) as Ho.
    destruct (myCallback env requestId cleartexts proof s); [|done].
    destruct Ho as (Hp & _ & Hh & _ & _ & ->).
    assert (pending s requestId = true) as Hpend.
    { unfold pending. unfold context_of, mapping_get in Hp, Hh.
      destruct (decryptionContexts s !! requestId) as [c|]; simpl in *.
      - by rewrite Hp.
      - by apply keccak_nonzero in Hh. }
    unfold finalized, pending in *; simpl.
    rewrite completions_of_snoc, requests_of_snoc; simpl. rewrite app_nil_r.
    destruct (decide (requestId = r)) as [->|Hne].
    - rewrite lookup_insert_eq, Z.eqb_refl, length_app; simpl.
      rewrite Hpend in HI. lia.
    - rewrite lookup_insert_ne by done. apply Z.eqb_neq in Hne. by rewrite Hne, app_nil_r. }
  10: {
    unfold step, transact, dispatch; simpl.
    pose proof (request_outcome env oracleId s) as Ho.
    destruct (requestAggregateDecryption env oracleId s) as [[] s1|] eqn:E; [|done].
    clear Ho. apply request_post in E. subst s1.
    unfold pending in *; simpl.
    rewrite completions_of_snoc, requests_of_snoc; simpl. rewrite app_nil_r.
    destruct (decide (oracleId = r)) as [->|Hne].
    - rewrite lookup_insert_eq, Z.eqb_refl, length_app; simpl.
      destruct (decryptionContexts s !! r) as [[? ? []]|]; simpl in *; lia.
    - rewrite lookup_insert_ne by done. apply Z.eqb_neq in Hne. by rewrite Hne, app_nil_r. }
  all: match goal with
       | |- context [step ?s0 (?e, ?c)] =>
           destruct (other_calls_frame s0 e c I) as (Hctx & [Hev|(ev & Hev & Hno)])
       end.
  all: unfold pending in *; rewrite Hctx, Hev; try done.
  all: rewrite completions_of_snoc, requests_of_snoc.
  all: destruct (Hno r) as [-> ->]; by rewrite !app_nil_r.
Qed.

End Accounting.

(** X17. No completion without a request.  From deployment on, over any
    history and for every request id, the [DecryptionCompleted] events
    never outnumber the [DecryptionRequested] events; while a request is
    pending they are strictly fewer.  So every completion answers a
    request that was really issued, and no request is completed twice.
    (The hash of a commitment is taken never to be zero.) *)
Theorem completions_bounded_by_requests
    (keccak_nonzero : forall cts addr, keccak256_encode cts addr <> bytes32_zero)
    (env0 : Env) (txs : list (Env * Call)) (requestId : Z) :
  let s := run txs (constructor env0) in
  (length (completions_of requestId (events s)) + (if pending s requestId then 1 else 0)
   <= length (requests_of requestId (events s)))%nat.
Proof.
  intros s. unfold s. clear s.
  assert (forall s0, (forall r,
            (length (completions_of r (events s0)) + (if pending s0 r then 1 else 0)
             <= length (requests_of r (events s0)))%nat) ->
          forall r,
            (length (completions_of r (events (run txs s0)))
             + (if pending (run txs s0) r then 1 else 0)
             <= length (requests_of r (events (run txs s0))))%nat) as Hrun.
  { induction txs as [|tx txs IH]; intros s0 H0; [done|].
    simpl. apply IH. by apply accounting_step. }
  apply Hrun. intros r. by unfold pending; simpl; rewrite lookup_empty.
Qed.

(** ** What the fold computes *)

Section FoldPlain.
Variables (dec_u : euint32 -> Z) (dec_b : ebool -> bool) (dec32 : bytes32 -> Z).
Hypothesis HH : Homomorphic dec_u dec_b dec32.

Lemma fold_loop_plain (data : gmap Z euint32) (flags : gmap Z ebool)
    (n : nat) (i : Z) (sum count : euint32) (anyFlagTrue : ebool) :
  dec_u sum = dec_u sum mod 2 ^ 32 ->
  dec_u count = dec_u count mod 2 ^ 32 ->
  let r := fold_loop data flags n i (sum, count, anyFlagTrue) in
  dec_u r.1.1 =
    (dec_u sum +
     sum_Z (map (fun k => dec_u (mapping_get euint32_zero data k)) (seqZ i (Z.of_nat n))))
    mod 2 ^ 32 /\
  dec_u r.1.2 = (dec_u count + Z.of_nat n) mod 2 ^ 32 /\
  dec_b r.2 =
    dec_b anyFlagTrue ||
    existsb id (map (fun k => dec_b (mapping_get ebool_zero flags k)) (seqZ i (Z.of_nat n))).
Proof.
  revert i sum count anyFlagTrue.
  induction n as [|n IH]; intros i sum count anyFlagTrue Hs Hc.
  - simpl. change (Z.of_nat 0) with 0.
    rewrite !Z.add_0_r, orb_false_r. by rewrite <- Hs, <- Hc.
  - cbn [fold_loop].
    destruct (IH (i + 1) (fhe_add sum (mapping_get euint32_zero data i))
                (fhe_add count (asEuint32 1))
                (fhe_or anyFlagTrue (mapping_get ebool_zero flags i)))
      as (I1 & I2 & I3).
    { rewrite (dec_add _ _ _ HH). by rewrite Z.mod_mod by lia. }
    { rewrite (dec_add _ _ _ HH). by rewrite Z.mod_mod by lia. }
    cbv zeta. rewrite I1, I2, I3.
    rewrite (seqZ_cons i (Z.of_nat (S n))) by lia.
    replace (Z.pred (Z.of_nat (S n))) with (Z.of_nat n) by lia.
    replace (Z.succ i) with (i + 1) by lia.
    rewrite !(dec_add _ _ _ HH), (dec_or _ _ _ HH).
    rewrite (dec_asEuint32 _ _ _ HH) by lia.
    cbn [map sum_Z fold_right existsb id].
    rewrite !Z.add_mod_idemp_l by lia. rewrite orb_assoc.
    unfold sum_Z. split; [f_equal; lia|]. split; [f_equal; lia|done].
Qed.

(** X18. What the fold computes, for a homomorphic library: the sum
    handle decrypts to the sum of the stored plaintexts modulo [2^32],
    the count handle to [dataCount] modulo [2^32], the flag handle to
    the disjunction of the stored flags; and, the count not being zero
    modulo [2^32], the average handle decrypts to the quotient of the
    two (rounded down) and the threshold handle tells whether that is at
    least 100.  A sum of [2^32] or more wraps around. *)
Theorem fold_plaintext (s : State) :
  0 <= dataCount s ->
  let sum := (fold_ledger s).1.1 in
  let count := (fold_ledger s).1.2 in
  let anyFlagTrue := (fold_ledger s).2 in
  dec_u sum = sum_Z (ledger_values dec_u s) mod 2 ^ 32 /\
  dec_u count = dataCount s mod 2 ^ 32 /\
  dec_b anyFlagTrue = existsb id (ledger_flags dec_b s) /\
  (dataCount s mod 2 ^ 32 <> 0 ->
   map dec32 (pack_cts (fold_ledger s)) =
     [ (sum_Z (ledger_values dec_u s) mod 2 ^ 32) / (dataCount s mod 2 ^ 32);
       (if existsb id (ledger_flags dec_b s) then 1 else 0);
       (if 100 <=? (sum_Z (ledger_values dec_u s) mod 2 ^ 32) / (dataCount s mod 2 ^ 32)
        then 1 else 0) ]).
Proof.
  intros Hn.
  destruct (fold_loop_plain (encryptedData s) (encryptedFlags s)
              (Z.to_nat (dataCount s)) 1 (asEuint32 0) (asEuint32 0) (asEbool false))
    as (H1 & H2 & H3).
  { by rewrite (dec_asEuint32 _ _ _ HH) by lia. }
  { by rewrite (dec_asEuint32 _ _ _ HH) by lia. }
  rewrite (dec_asEuint32 _ _ _ HH) in H1, H2 by lia.
  rewrite (dec_asEbool _ _ _ HH) in H3.
  rewrite Z2Nat.id in H1, H2, H3 by done. simpl in H1, H2, H3.
  fold (fold_ledger s) in H1, H2, H3.
  fold (ledger_values dec_u s) in H1. fold (ledger_flags dec_b s) in H3.
  cbv zeta. split; [done|]. split; [done|]. split; [done|].
  intros Hnz.
  destruct (fold_ledger s) as [[sum count] anyf]. simpl in *.
  rewrite (dec32_euint32 _ _ _ HH), !(dec32_ebool _ _ _ HH).
  rewrite (dec_ge _ _ _ HH), (dec_asEuint32 _ _ _ HH) by lia.
  rewrite (dec_div _ _ _ HH) by (rewrite H2; done).
  by rewrite H1, H2, H3.
Qed.

End FoldPlain.

(** X19. There is no uniqueness test on request ids.  When the oracle
    gives a request an id that is already stored, even one whose request
    was finalized, the stored context is replaced: the id is pending
    again, with the commitment and the batch id of the new request. *)
Theorem reissued_id_reopens_latch (env : Env) (requestId : Z) (s s1 : State)
    (c : DecryptionContext) :
  decryptionContexts s !! requestId = Some c ->
  requestAggregateDecryption env requestId s = Done tt s1 ->
  decryptionContexts s1 !! requestId =
    Some {| batchId := currentBatchId s;
            stateHash := _hashCiphertexts (pack_cts (fold_ledger s));
            processed := false |} /\
  pending s1 requestId = true /\
  (forall other, other <> requestId ->
     decryptionContexts s1 !! other = decryptionContexts s !! other).
Proof.
  intros _ Hreq. apply request_post in Hreq. subst s1.
  unfold pending; simpl. rewrite lookup_insert_eq. repeat split.
  intros other Hne. by rewrite lookup_insert_ne.
Qed.

End Proofs.

(** * The symbolic library meets the assumptions *)

Lemma Sym_homomorphic : Homomorphic Sym.dec_u Sym.dec_b Sym.dec32.
Proof.
  split; simpl; try done.
  - intros v Hv. by apply Z.mod_small.
  - intros a b Hb. apply Z.eqb_neq in Hb. by rewrite Hb.
Qed.

Lemma Sym_collision_free : CollisionFree Sym.rank.
Proof.
  split; simpl.
  - intros a b. lia.
  - intros a b a' b' E. by injection E.
  - intros a a' E. by injection E.
  - intros cts cts' addr E. by injection E.
Qed.

Lemma Sym_keccak_nonzero (cts : list Sym.sym_bytes32) (addr : address) :
  keccak256_encode cts addr <> bytes32_zero.
Proof. done. Qed.

(** * The theorems at work on the symbolic history *)

Section Instances.
Import Sym.

Lemma callback_finalizes_exactly_once_witness :
  exists s1,
    transact (myCallback (at_time 3000) 7 honest_cleartexts [Byte.x01]) requested
      = (s1, None) /\
    processed (context_of s1 7) = true /\
    transact (myCallback (at_time 3100) 7 honest_cleartexts [Byte.x01]) s1
      = (s1, Some ReplayAttempt).
Proof.
  destruct (callback_finalizes_exactly_once (at_time 3000) 7
              honest_cleartexts [Byte.x01] requested
              (context_of requested 7))
    as (s1 & Hfirst & Hctx & _ & Hsecond & _).
  - by vm_compute.
  - by vm_compute.
  - by vm_compute.
  - by vm_compute.
  - by vm_compute.
  - by vm_compute.
  - exists s1. split; [exact Hfirst|]. split; [|apply Hsecond].
    unfold context_of, mapping_get. by rewrite Hctx.
Defined.

Lemma stale_commitment_rejected_witness :
  transact (myCallback (at_time 3000) 7 honest_cleartexts [Byte.x01])
           (run late_history requested)
    = (run late_history requested, Some StateMismatch).
Proof.
  apply (stale_commitment_rejected (F := lib) rank Sym_collision_free
           (at_time 2200) 7 closed requested
           [(at_time 2300, CallOpenBatch)] (at_time 2400) UFresh BFresh []
           (at_time 3000) honest_cleartexts [Byte.x01]).
  - by vm_compute.
  - by vm_compute.
  - by vm_compute.
  - repeat constructor.
  - by vm_compute.
  - by vm_compute.
Defined.

Lemma myCallback_all_or_nothing_witness :
  transact (myCallback (at_time 3000) 7 honest_cleartexts []) requested
    = (requested, Some SignatureRevert).
Proof.
  pose proof (myCallback_all_or_nothing (at_time 3000) 7 honest_cleartexts []
                requested) as H.
  destruct (myCallback (at_time 3000) 7 honest_cleartexts [] requested)
    as [[] s'|e s'] eqn:E.
  - by vm_compute in E.
  - destruct H as [_ H]. rewrite H. f_equal. vm_compute in E. congruence.
Defined.

Lemma fold_of_10_20_30_witness :
  map dec32 (pack_cts (fold_ledger ledger3)) = [20; 1; 0].
Proof.
  apply (fold_of_10_20_30 (F := lib) dec_u dec_b dec32 Sym_homomorphic ledger3);
    by vm_compute.
Defined.

Lemma request_batch_guards_witness :
  batchOpen opened = true /\ dataCount opened = 0 /\
  requestAggregateDecryption (at_time 5000) 8 opened = Revert InvalidBatch opened /\
  requestAggregateDecryption (at_time 5000) 8 paused_open = Revert Paused paused_open.
Proof.
  pose proof (request_batch_guards (at_time 5000) 8 opened) as (_ & Hopen & _).
  pose proof (request_batch_guards (at_time 5000) 8 paused_open) as (_ & _ & Hpaused & _).
  split; [by vm_compute|]. split; [by vm_compute|]. split.
  - apply Hopen; by vm_compute.
  - apply Hpaused; by vm_compute.
Defined.

Lemma callback_decoding_witness :
  events (finalized requested 7 [0; 0] [false]) =
  events requested ++ [DecryptionCompleted 7 1 [0; 0] [false]].
Proof.
  destruct (callback_decoding (at_time 3000) 7 honest_cleartexts [Byte.x01]
              requested (finalized requested 7 [0; 0] [false]))
    as ((_ & _ & Hev) & _).
  - by vm_compute.
  - rewrite Hev. by vm_compute.
Defined.

Lemma contribution_ids_dense_witness :
  submitted_ids (events (run full_history (constructor deployer))) = [1; 2].
Proof.
  pose proof (contribution_ids_dense (F := lib) deployer full_history) as H.
  cbv zeta in H. destruct H as (_ & _ & _ & H & _).
  rewrite H. by vm_compute.
Defined.

Lemma cooldown_sixty_seconds_witness :
  submitEncryptedData (at_time 2059) UFresh BFresh submitted
    = Revert CooldownActive submitted /\
  exists s2, submitEncryptedData (at_time 2060) UFresh BFresh submitted = Done tt s2.
Proof.
  destruct (cooldown_sixty_seconds (F := lib) (at_time 2000) UFresh BFresh
              opened submitted)
    as (_ & _ & H).
  - by vm_compute.
  - by vm_compute.
  - by vm_compute.
  - split.
    + apply (H (at_time 2059) UFresh BFresh); [done|by vm_compute].
    + destruct (proj2 (H (at_time 2060) UFresh BFresh eq_refl)) as (s2 & Hs2 & _);
        [by vm_compute..|].
      by exists s2.
Defined.

Lemma forged_callback_rejected_witness :
  transact (myCallback (at_time 3000) 99 honest_cleartexts [Byte.x01]) requested
    = (requested, Some StateMismatch).
Proof.
  apply (forged_callback_rejected (F := lib) Sym_keccak_nonzero); by vm_compute.
Defined.

Lemma request_needs_no_role_witness :
  snd (transact (requestAggregateDecryption (mkEnv 42 5000) 8) closed) = None.
Proof.
  apply (request_needs_no_role (mkEnv 42 5000) 8 closed).
  repeat split; by vm_compute.
Defined.

(** ** Where the spec's sentences fail *)

(** C5 as stated fails.  With the batch open and the ledger empty the
    request answers [InvalidBatch], and with the contract paused it
    answers [Paused] although the batch is open: so "open batch" does not
    always give the open-batch error [BatchClosed]. *)
Lemma request_open_batch_counterexample :
  (batchOpen opened = true /\
   snd (transact (requestAggregateDecryption (at_time 5000) 8) opened)
     = Some InvalidBatch) /\
  (batchOpen paused_open = true /\ dataCount paused_open = 1 /\
   snd (transact (requestAggregateDecryption (at_time 5000) 8) paused_open)
     = Some Paused) /\
  ~ (forall (env : Env) (oracleId : Z) (s : State),
       batchOpen s = true ->
       snd (transact (requestAggregateDecryption env oracleId) s) = Some BatchClosed).
Proof.
  split; [by vm_compute|]. split; [by vm_compute|].
  intros H. specialize (H (at_time 5000) 8 paused_open eq_refl).
  by vm_compute in H.
Qed.

(** C6 as stated fails.  The callback reports the threshold result in
    the numeric array ([results] has two entries, [flags] one), and it
    does not decode the third word as a boolean: a cleartext whose third
    word is 2 is accepted and reported as 2, where [abi.decode(.., (bool))]
    would have reverted. *)
Lemma threshold_not_decoded_as_bool :
  (transact (myCallback (at_time 3000) 7 honest_cleartexts [Byte.x01]) requested
     = (finalized requested 7 [0; 0] [false], None)) /\
  (transact (myCallback (at_time 3000) 7 odd_cleartexts [Byte.x01]) requested
     = (finalized requested 7 [0; 2] [false], None)) /\
  last (events (finalized requested 7 [0; 2] [false]))
    = Some (DecryptionCompleted 7 1 [0; 2] [false]) /\
  abi_decode_bool (take 32 (drop 64 odd_cleartexts)) requested
    = Revert DecodeRevert requested.
Proof. repeat split; by vm_compute. Qed.

(** ** The further properties on the symbolic history *)

Lemma non_provider_rejected_witness :
  submitEncryptedData stranger UFresh BFresh opened = Revert NotProvider opened.
Proof. apply (non_provider_rejected (F := lib)). by vm_compute. Defined.

Lemma admin_calls_owner_only_witness :
  dispatch stranger CallPause opened = Revert NotOwner opened.
Proof.
  apply (admin_calls_owner_only (F := lib) stranger CallPause opened); by vm_compute.
Defined.

Lemma submit_accepted_iff_witness :
  snd (transact (submitEncryptedData (at_time 2000) UFresh BFresh) opened) = None.
Proof.
  apply (submit_accepted_iff (F := lib)). unfold submission_cooldown_over.
  repeat split; by vm_compute.
Defined.

Lemma provider_registry_witness :
  mapping_get false (isProvider (step opened (deployer, CallAddProvider 2))) 2 = true /\
  mapping_get false (isProvider (step opened (deployer, CallRemoveProvider 1))) 1 = false.
Proof.
  assert (msg_sender deployer = owner opened) as Ho by (by vm_compute).
  pose proof (provider_registry (F := lib) deployer 2 opened Ho) as H2.
  pose proof (provider_registry (F := lib) deployer 1 opened Ho) as H1.
  cbv zeta in H1, H2.
  destruct H2 as (_ & _ & H2 & _). destruct H1 as (_ & _ & _ & H1 & _).
  by split.
Defined.

Lemma ownership_transfer_witness :
  owner (step opened (deployer, CallTransferOwnership 2)) = 2 /\
  dispatch deployer CallPause (step opened (deployer, CallTransferOwnership 2))
    = Revert NotOwner (step opened (deployer, CallTransferOwnership 2)).
Proof.
  assert (msg_sender deployer = owner opened) as Ho by (by vm_compute).
  destruct (ownership_transfer (F := lib) deployer 2 opened Ho) as (_ & H).
  cbv zeta in H. destruct H as (H1 & _ & H3).
  split; [exact H1|]. apply H3; by vm_compute.
Defined.

Lemma paused_blocks_witness :
  dispatch (at_time 5000) (CallSubmit UFresh BFresh) paused_open
    = Revert Paused paused_open.
Proof.
  pose proof (proj1 (paused_blocks (F := lib) (at_time 5000)
                       (CallSubmit UFresh BFresh) paused_open)) as H.
  rewrite H by (by vm_compute). by vm_compute.
Defined.

Lemma callback_reads_ledger_and_contexts_witness :
  snd (transact (myCallback stranger 7 honest_cleartexts [Byte.x01])
         (step requested (at_time 2250, CallPause))) = None.
Proof.
  destruct (callback_reads_ledger_and_contexts (F := lib) (at_time 3000) stranger 7
              honest_cleartexts [Byte.x01] requested
              (step requested (at_time 2250, CallPause))) as [H _].
  - by vm_compute.
  - repeat split; by vm_compute.
  - etrans; [exact H|by vm_compute].
Defined.

Lemma batch_id_lifecycle_witness :
  closeBatch (at_time 2300) requested = Revert BatchClosed requested.
Proof.
  destruct (batch_id_lifecycle (F := lib) [] requested) as (_ & _ & H).
  apply (H (at_time 2300)); by vm_compute.
Defined.

Lemma ledger_append_only_witness :
  encryptedData (run late_history requested) !! 1 = encryptedData requested !! 1.
Proof.
  apply (ledger_append_only (F := lib) late_history requested 1). by vm_compute.
Defined.

Lemma log_append_only_witness :
  events requested `prefix_of` events (run late_history requested).
Proof. apply (log_append_only (F := lib) late_history requested). Defined.

Lemma request_then_callback_witness :
  currentBatchId (run quiet_history requested) = 2 /\
  batchId (context_of (run quiet_history requested) 7) = 1 /\
  snd (transact (myCallback stranger 7 honest_cleartexts [Byte.x01])
         (run quiet_history requested)) = None.
Proof.
  destruct (request_then_callback (F := lib) (at_time 2200) 7 closed requested
              quiet_history stranger honest_cleartexts [Byte.x01])
    as [Hdone Hbatch].
  - by vm_compute.
  - repeat constructor.
  - by vm_compute.
  - by vm_compute.
  - by vm_compute.
  - by vm_compute.
  - split; [by vm_compute|]. split.
    + rewrite Hbatch. by vm_compute.
    + unfold transact. by rewrite Hdone.
Defined.

Lemma callback_decode_edges_witness :
  myCallback stranger 7 (take 95 honest_cleartexts) [Byte.x01] requested
    = Revert DecodeRevert requested.
Proof.
  apply (callback_decode_edges (F := lib) stranger 7 (take 95 honest_cleartexts)
           [Byte.x01] requested); by vm_compute.
Defined.

Lemma request_cooldown_witness :
  requestAggregateDecryption (at_time 2259) 8 requested
    = Revert CooldownActive requested.
Proof.
  destruct (request_cooldown (F := lib) (at_time 2200) 7 closed requested)
    as (_ & _ & _ & H).
  - by vm_compute.
  - apply H; by vm_compute.
Defined.

Lemma cooldown_setting_witness :
  submitEncryptedData (at_time 9000) UFresh BFresh locked = Revert Panic locked.
Proof.
  destruct (cooldown_setting (F := lib) (at_time 9000) 0 locked) as (_ & H & _).
  apply H; by vm_compute.
Defined.

Lemma fresh_deployment_witness :
  submitEncryptedData (at_time 1100) UFresh BFresh genesis
    = Revert BatchClosed genesis.
Proof.
  pose proof (fresh_deployment (F := lib) deployer (at_time 1100) UFresh BFresh 7) as H.
  cbv zeta in H. destruct H as (_ & _ & H & _).
  destruct (H eq_refl) as (H1 & _). apply H1. by vm_compute.
Defined.

Lemma submission_cooldown_per_provider_witness :
  snd (transact (submitEncryptedData (mkEnv 2 2000) UFresh BFresh) first_of_two) = None.
Proof.
  destruct (submission_cooldown_per_provider (F := lib) (at_time 2000) (mkEnv 2 2000)
              UFresh UFresh BFresh BFresh two_providers first_of_two)
    as (_ & _ & _ & _ & H).
  - by vm_compute.
  - apply H; by vm_compute.
Defined.

Lemma completions_bounded_by_requests_witness :
  (length (completions_of 7 (events (run full_history (constructor deployer)))) + 1
   <= length (requests_of 7 (events (run full_history (constructor deployer)))))%nat.
Proof.
  pose proof (completions_bounded_by_requests (F := lib) Sym_keccak_nonzero
                deployer full_history 7) as H.
  cbv zeta in H.
  replace (pending (run full_history (constructor deployer)) 7) with true in H
    by (by vm_compute).
  exact H.
Defined.

Lemma fold_plaintext_witness :
  map dec32 (pack_cts (fold_ledger ledger3)) = [20; 1; 0].
Proof.
  destruct (fold_plaintext (F := lib) dec_u dec_b dec32 Sym_homomorphic ledger3)
    as (_ & _ & _ & H).
  - by vm_compute.
  - etrans; [apply H; by vm_compute|by vm_compute].
Defined.

Lemma reissued_id_reopens_latch_witness :
  processed (context_of finalized7 7) = true /\
  pending (step finalized7 (at_time 4000, CallRequest 7)) 7 = true.
Proof.
  split; [by vm_compute|].
  eapply (reissued_id_reopens_latch (F := lib) (at_time 4000) 7 finalized7);
    by vm_compute.
Defined.

End Instances.
